(** * valhalla skin server: the v1 HTTP API, its configuration and their properties

    A shallow embedding of [src/config.py] and of the token check, the profile
    resource, the texture resource, the texture store and the login response
    of [src/valhalla/api/v1.py].  Request handlers are functions in a small
    state-and-abort monad over a [World] that holds the committed database
    tables, the database session, the texture file system and the
    pending-verification cache.  Libraries the code calls (the image decoder,
    the signed-token serializer, the HTTP client) are section variables; the
    SHA-1 digest is written out. *)

From Stdlib Require Import ZArith QArith Strings.String Strings.Ascii Strings.Byte List.
From stdpp Require Import gmap strings list sorting pretty.

Local Open Scope Z_scope.
Local Open Scope string_scope.

(** ** Python values, truthiness and [os.getenv] *)

Module Py.

Inductive value :=
  | VNone
  | VBool (b : bool)
  | VStr (s : string).

(** [bool(v)]: [None], [False] and the empty string are falsy. *)
Definition bool_ (v : value) : bool :=
  match v with
  | VNone => false
  | VBool b => b
  | VStr s => negb (String.eqb s "")
  end.

(** [os.getenv(key, default)] over the process environment. *)
Definition getenv (environ : gmap string string) (key : string) (default : value) : value :=
  match environ !! key with
  | Some s => VStr s
  | None => default
  end.

(** [os.getenv(key, default)] when [default] is a [str]: the result is one. *)
Definition getenv_str (environ : gmap string string) (key default : string) : string :=
  match environ !! key with
  | Some s => s
  | None => default
  end.

(** [int(s)] for a decimal numeral with an optional sign; [None] stands for
    [ValueError].  Surrounding blanks and digit-group underscores, which
    Python also accepts, are not recognised here. *)
Definition digit (c : ascii) : option Z :=
  let n := nat_of_ascii c in
  if ((48 <=? n) && (n <=? 57))%nat then Some (Z.of_nat (n - 48)) else None.

Fixpoint digits (acc : Z) (s : string) : option Z :=
  match s with
  | EmptyString => Some acc
  | String c r =>
      match digit c with
      | Some d => digits (10 * acc + d) r
      | None => None
      end
  end.

Definition int_ (s : string) : option Z :=
  match s with
  | EmptyString => None
  | String "-" (String _ _ as r) => Z.opp <$> digits 0 r
  | String "+" (String _ _ as r) => digits 0 r
  | String "-" EmptyString | String "+" EmptyString => None
  | _ => digits 0 s
  end.

(** [dict(pairs)]: a later pair replaces an earlier one with the same key. *)
Definition dict {V} (pairs : list (string * V)) : gmap string V :=
  list_to_map (reverse pairs).

(** [str.upper] on the ASCII range. *)
Definition upper_ascii (c : ascii) : ascii :=
  let n := nat_of_ascii c in
  if ((97 <=? n) && (n <=? 122))%nat then ascii_of_nat (n - 32) else c.

Fixpoint upper (s : string) : string :=
  match s with
  | EmptyString => EmptyString
  | String c r => String (upper_ascii c) (upper r)
  end.

End Py.

(** ** [hashlib.sha1]: FIPS 180-4 over 32-bit words kept in [Z] *)

Module Sha1.

Definition w32 (x : Z) : Z := x mod 2 ^ 32.

Definition rotl (n x : Z) : Z :=
  w32 (Z.lor (Z.shiftl x n) (Z.shiftr x (32 - n))).

Definition be64 (n : Z) : list Z :=
  map (fun i => Z.shiftr n (8 * i) mod 256) [7; 6; 5; 4; 3; 2; 1; 0].

(** Message, the byte 0x80, zeros up to 56 modulo 64, the bit length. *)
Definition pad (msg : list Z) : list Z :=
  let len := Z.of_nat (length msg) in
  msg ++ [128] ++ repeat 0 (Z.to_nat ((55 - len) mod 64)) ++ be64 (8 * len).

Fixpoint words (l : list Z) : list Z :=
  match l with
  | a :: b :: c :: d :: r =>
      (Z.shiftl a 24 + Z.shiftl b 16 + Z.shiftl c 8 + d) :: words r
  | _ => []
  end.

Fixpoint blocks (fuel : nat) (ws : list Z) : list (list Z) :=
  match fuel, ws with
  | O, _ | _, [] => []
  | S f, _ => take 16 ws :: blocks f (drop 16 ws)
  end.

(** The message schedule, most recent word first. *)
Fixpoint extend (n : nat) (rev_w : list Z) : list Z :=
  match n with
  | O => rev_w
  | S n' =>
      let x := Z.lxor (Z.lxor (nth 2 rev_w 0) (nth 7 rev_w 0))
                      (Z.lxor (nth 13 rev_w 0) (nth 15 rev_w 0)) in
      extend n' (rotl 1 x :: rev_w)
  end.

Definition schedule (block : list Z) : list Z := rev (extend 64 (rev block)).

Definition lnot32 (x : Z) : Z := Z.lxor x (2 ^ 32 - 1).

Definition f_k (i : nat) (b c d : Z) : Z * Z :=
  if (i <? 20)%nat then (Z.lor (Z.land b c) (Z.land (lnot32 b) d), 1518500249)
  else if (i <? 40)%nat then (Z.lxor (Z.lxor b c) d, 1859775393)
  else if (i <? 60)%nat
       then (Z.lor (Z.lor (Z.land b c) (Z.land b d)) (Z.land c d), 2400959708)
  else (Z.lxor (Z.lxor b c) d, 3395469782).

Definition regs : Type := Z * Z * Z * Z * Z.

Definition round (st : regs) (iw : nat * Z) : regs :=
  let '(a, b, c, d, e) := st in
  let '(i, w) := iw in
  let '(f, k) := f_k i b c d in
  (w32 (rotl 5 a + f + e + k + w), a, rotl 30 b, c, d).

Definition compress (h : regs) (block : list Z) : regs :=
  let w := schedule block in
  let '(a, b, c, d, e) := fold_left round (combine (seq 0 80) w) h in
  let '(h0, h1, h2, h3, h4) := h in
  (w32 (h0 + a), w32 (h1 + b), w32 (h2 + c), w32 (h3 + d), w32 (h4 + e)).

Definition init : regs :=
  (1732584193, 4023233417, 2562383102, 271733878, 3285377520).

Definition be32 (x : Z) : list Z :=
  map (fun i => Z.shiftr x (8 * i) mod 256) [3; 2; 1; 0].

(** [hashlib.sha1(data).digest()], twenty bytes. *)
Definition digest (data : list byte) : list Z :=
  let msg := pad (map (fun b => Z.of_N (Byte.to_N b)) data) in
  let ws := words msg in
  let '(h0, h1, h2, h3, h4) := fold_left compress (blocks (length ws) ws) init in
  be32 h0 ++ be32 h1 ++ be32 h2 ++ be32 h3 ++ be32 h4.

Definition hex_digit (n : Z) : ascii :=
  nth (Z.to_nat n)
      ["0"; "1"; "2"; "3"; "4"; "5"; "6"; "7"; "8"; "9"; "a"; "b"; "c"; "d"; "e"; "f"]%char
      "0"%char.

Fixpoint hex (bs : list Z) : string :=
  match bs with
  | [] => EmptyString
  | b :: r => String (hex_digit (b / 16)) (String (hex_digit (b mod 16)) (hex r))
  end.

(** [hashlib.sha1(data).hexdigest()]. *)
Definition hexdigest (data : list byte) : string := hex (digest data).

(** A string of lowercase hexadecimal digits. *)
Definition is_lower_hex_digit (c : ascii) : bool :=
  let n := nat_of_ascii c in
  ((48 <=? n) && (n <=? 57) || (97 <=? n) && (n <=? 102))%nat.

Fixpoint is_lower_hex (s : string) : bool :=
  match s with
  | EmptyString => true
  | String c r => is_lower_hex_digit c && is_lower_hex r
  end.

End Sha1.

(** ** [src/config.py] *)

Module Config.

Record t := {
  SECRET_KEY : Py.value;
  SQLALCHEMY_DATABASE_URI : string;
  SQLALCHEMY_TRACK_MODIFICATIONS : bool;
  textures_fs : string;
  ROOT_URL : string;
  OFFLINE : bool;
  SKIN_BLACKLIST : list string
}.

(** The class body of [Config], evaluated in the environment [environ]. *)
Definition load (environ : gmap string string) : t :=
  {| SECRET_KEY := Py.getenv environ "SECRET_KEY" Py.VNone;
     SQLALCHEMY_DATABASE_URI :=
       Py.getenv_str environ "DATABASE_URI" "sqlite:///valhalla.db";
     SQLALCHEMY_TRACK_MODIFICATIONS := false;
     textures_fs := Py.getenv_str environ "TEXTURES_FS" "file://.";
     ROOT_URL := Py.getenv_str environ "ROOT_URL" "http://127.0.0.1";
     OFFLINE := Py.bool_ (Py.getenv environ "OFFLINE" (Py.VBool false));
     SKIN_BLACKLIST := ["cape"] |}.

(** [DebugConfig(Config)]: the same settings with two more. *)
Record debug := {
  base : t;
  DEBUG : bool;
  ENV : string
}.

Definition load_debug (environ : gmap string string) : debug :=
  {| base := load environ; DEBUG := true; ENV := "testing" |}.

End Config.

(** ** The data model ([valhalla.models], used but not defined in [v1.py]) *)

(** A player row.  [user_id] is [None] on an object that was constructed but
    never flushed to the database. *)
Record User := {
  user_id : option Z;
  user_uuid : string;
  user_name : string
}.

(** A stored blob: the content hash and the first uploader. *)
Record Upload := {
  upload_hash : string;
  upload_user : User
}.

Record Metadata := {
  meta_key : string;
  meta_value : string
}.

(** A texture history row; [tex_upload = None] is a tombstone. *)
Record Texture := {
  tex_id : Z;
  tex_user : User;
  tex_type : string;
  tex_upload : option Upload;
  tex_meta : list Metadata
}.

#[global] Instance User_eq_dec : EqDecision User.
Proof. solve_decision. Defined.
#[global] Instance Upload_eq_dec : EqDecision Upload.
Proof. solve_decision. Defined.
#[global] Instance Metadata_eq_dec : EqDecision Metadata.
Proof. solve_decision. Defined.
#[global] Instance Texture_eq_dec : EqDecision Texture.
Proof. solve_decision. Defined.

(** The order of [order_by(Texture.id)]. *)
Definition tex_le (a b : Texture) : Prop := tex_id a <= tex_id b.

#[global] Instance tex_le_dec : RelDecision tex_le.
Proof. intros a b. unfold tex_le. apply _. Defined.

(** What [db.session] holds between [add] and [commit]: constructed objects
    (a texture has no identifier until it is flushed) and attribute writes
    on loaded rows. *)
Inductive Pending :=
  | NewUser (u : User)
  | NewUpload (u : Upload)
  | NewTexture (user : User) (typ : string) (upload : option Upload) (meta : list Metadata)
  | DirtyName (u : User) (name : string).

(** ** The world a request runs in *)

Record World := {
  users : list User;                        (* committed rows *)
  uploads : list Upload;
  textures : list Texture;
  session : list Pending;                   (* db.session, not yet committed *)
  commits : nat;                            (* calls of db.session.commit() so far *)
  fs : gmap string (list byte);             (* the texture storage, by file name *)
  validate_tokens : gmap string (Z * string);
  g_user : option User                      (* flask.g.user *)
}.

Definition set_session (s : list Pending) (w : World) : World :=
  {| users := users w; uploads := uploads w; textures := textures w; session := s;
     commits := commits w; fs := fs w; validate_tokens := validate_tokens w;
     g_user := g_user w |}.

Definition set_fs (f : gmap string (list byte)) (w : World) : World :=
  {| users := users w; uploads := uploads w; textures := textures w;
     session := session w; commits := commits w; fs := f;
     validate_tokens := validate_tokens w; g_user := g_user w |}.

Definition set_validate_tokens (c : gmap string (Z * string)) (w : World) : World :=
  {| users := users w; uploads := uploads w; textures := textures w;
     session := session w; commits := commits w; fs := fs w;
     validate_tokens := c; g_user := g_user w |}.

Definition set_g_user (u : option User) (w : World) : World :=
  {| users := users w; uploads := uploads w; textures := textures w;
     session := session w; commits := commits w; fs := fs w;
     validate_tokens := validate_tokens w; g_user := u |}.

(** The next value of an autoincrement key. *)
Definition next_id (ids : list Z) : Z := 1 + foldr Z.max 0 ids.

Definition user_ids (us : list User) : list Z := omap user_id us.

(** Flushing one pending object into the tables. *)
Definition flush (w : World) (p : Pending) : World :=
  match p with
  | NewUser u =>
      let row := {| user_id := Some (next_id (user_ids (users w)));
                    user_uuid := user_uuid u; user_name := user_name u |} in
      {| users := users w ++ [row]; uploads := uploads w; textures := textures w;
         session := session w; commits := commits w; fs := fs w;
         validate_tokens := validate_tokens w; g_user := g_user w |}
  | NewUpload u =>
      {| users := users w; uploads := uploads w ++ [u]; textures := textures w;
         session := session w; commits := commits w; fs := fs w;
         validate_tokens := validate_tokens w; g_user := g_user w |}
  | NewTexture user typ upload meta =>
      let row := {| tex_id := next_id (tex_id <$> textures w); tex_user := user;
                    tex_type := typ; tex_upload := upload; tex_meta := meta |} in
      {| users := users w; uploads := uploads w; textures := textures w ++ [row];
         session := session w; commits := commits w; fs := fs w;
         validate_tokens := validate_tokens w; g_user := g_user w |}
  | DirtyName u name =>
      let rename (r : User) :=
        if decide (user_id r = user_id u)
        then {| user_id := user_id r; user_uuid := user_uuid r; user_name := name |}
        else r in
      {| users := rename <$> users w; uploads := uploads w; textures := textures w;
         session := session w; commits := commits w; fs := fs w;
         validate_tokens := validate_tokens w; g_user := g_user w |}
  end.

(** ** Outcomes and the request monad *)

(** A call returns, is stopped by [abort(code, message)], or raises. *)
Inductive Outcome (A : Type) :=
  | Return (a : A)
  | Abort (code : Z) (message : string)
  | Raise (exc : string).
Arguments Return {A} a.
Arguments Abort {A} code message.
Arguments Raise {A} exc.

Definition M (A : Type) : Type := World -> Outcome A * World.

Definition ret {A} (a : A) : M A := fun w => (Return a, w).
Definition abort {A} (code : Z) (message : string) : M A := fun w => (Abort code message, w).
Definition raise {A} (exc : string) : M A := fun w => (Raise exc, w).

Definition bind {A B} (c : M A) (k : A -> M B) : M B :=
  fun w =>
    match c w with
    | (Return a, w') => k a w'
    | (Abort code message, w') => (Abort code message, w')
    | (Raise exc, w') => (Raise exc, w')
    end.

Definition lift {A} (o : Outcome A) : M A := fun w => (o, w).
Definition get : M World := fun w => (Return w, w).
Definition modify (f : World -> World) : M unit := fun w => (Return tt, f w).

Notation "x <- c ;; k" := (bind c (fun x => k))
  (at level 100, c at next level, right associativity).
Notation "c ;;; k" := (bind c (fun _ => k))
  (at level 100, right associativity).

(** [try: body finally: fin]: [fin] runs whatever [body] did, and the outcome
    of [body] stands unless [fin] itself fails. *)
Definition try_finally {A} (body : M A) (fin : M unit) : M A :=
  fun w =>
    let '(o, w1) := body w in
    match fin w1 with
    | (Return _, w2) => (o, w2)
    | (Abort code message, w2) => (Abort code message, w2)
    | (Raise exc, w2) => (Raise exc, w2)
    end.

(** [db.session.add(obj)].  SQLAlchemy's [Session.add] returns [None],
    at whatever type the caller reads the result. *)
Definition db_session_add {A} (p : Pending) : M (option A) :=
  modify (fun w => set_session (session w ++ [p]) w) ;;; ret None.

(** [db.session.commit()]: flush what is pending, make it visible, count. *)
Definition session_commit : M unit :=
  modify (fun w =>
    let w' := foldl flush w (session w) in
    {| users := users w'; uploads := uploads w'; textures := textures w';
       session := []; commits := S (commits w'); fs := fs w';
       validate_tokens := validate_tokens w'; g_user := g_user w' |}).

(** The end of a request: the scoped session is dropped with whatever it still
    holds, and [flask.g] with it. *)
Definition teardown_request (w : World) : World :=
  set_g_user None (set_session [] w).

(** ** What the handlers receive from outside *)

(** [PIL.Image]: the detected format, [(width, height)], the decoded pixels. *)
Record Image := {
  format : string;
  size : Z * Z;
  tobytes : list byte
}.

(** [Serializer.loads(token)]: the payload's [id] ([None] when the token was
    issued for a player object without one), or the exception raised. *)
Inductive Loaded :=
  | Payload (id : option Z)
  | SignatureExpired
  | BadSignature.

(** [requests.Response] as [TextureResource.post] reads it. *)
Record HttpResponse := {
  ok : bool;
  text : string;
  content : list byte
}.

(** The session server's answer as [AuthResponseResource.post] reads it:
    [response.ok] and the [id] and [name] of [response.json()]. *)
Record Joined := {
  joined_ok : bool;
  joined_id : string;
  joined_name : string
}.

(** [werkzeug.FileStorage]: truthy when it has a file name. *)
Record FileStorage := {
  filename : string;
  stream : list byte
}.

Record Request := {
  form : gmap string string;
  files : gmap string FileStorage;
  remote_addr : string;
  authorization : option string             (* the bearer token, when one is sent *)
}.

(** A handler's [(body, status)] result. *)
Record Response := {
  body : string;
  status : Z
}.

Inductive Method := POST | PUT | DELETE.

(** One value of the profile's [textures] object. *)
Record TexEntry := {
  url : string;
  metadata : option (gmap string string)
}.

(** The document [UserResource.get] hands to [jsonify]. *)
Record Profile := {
  timestamp : Z;
  profileId : string;
  profileName : string;
  profile_textures : gmap string TexEntry
}.

(** The document and header [AuthResponseResource.post] returns. *)
Record Login := {
  accessToken : string;
  userId : string;
  login_status : Z;
  Authorization : string
}.

(** The document [AuthHandshakeResource.post] hands to [jsonify]. *)
Record Handshake := {
  offline : bool;
  serverId : string;
  verifyToken : Z
}.

(** ** [src/valhalla/api/v1.py] *)

Section Api.

(** [PIL.Image.open(BytesIO(data))]; [None] when the bytes are no image. *)
Variable Image_open : list byte -> option Image.
(** [Serializer(SECRET_KEY).loads] and [Serializer(SECRET_KEY, expires_in).dumps]
    of [{'id': id}]. *)
Variable loads : string -> Loaded.
Variable dumps : option Z -> Z -> string.
(** [requests.get(url)]. *)
Variable requests_get : string -> HttpResponse.
(** [has_joined(name, server_id, remote_addr)]. *)
Variable has_joined : string -> string -> string -> Joined.
(** [current_app.config]. *)
Variable cfg : Config.t.
Variable server_id : string.

(** Modelled from the spec: the helpers [root_url], [blacklist] and
    [offline_mode] of the [valhalla] package, which [v1.py] imports and which
    are not under src/; each reads one configured value. *)
Definition root_url : string := Config.ROOT_URL cfg.
Definition blacklist : list string := Config.SKIN_BLACKLIST cfg.
Definition offline_mode : bool := Config.OFFLINE cfg.

(** Modelled from the spec: [User.get(id)] of [valhalla.models], the player
    with that surrogate identifier, or [None]. *)
Definition User_get (id : option Z) (w : World) : option User :=
  match id with
  | Some i => head (filter (fun u => user_id u = Some i) (users w))
  | None => None
  end.

Definition gen_auth_token (user : User) (expiration : Z) : string :=
  dumps (user_id user) expiration.

Definition auth_failed {A} : M A := abort 401 "".

Definition verify_auth_token (token : string) : M (option User) :=
  match loads token with
  | SignatureExpired => abort 401 "Token expired"
  | BadSignature => abort 401 "Bad token"
  | Payload id =>
      w <- get ;;
      let user := User_get id w in
      modify (set_g_user user) ;;;
      ret user
  end.

(** [@auth.login_required] of [HTTPTokenAuth]: the token of the
    [Authorization] header (the empty string without one) goes to the
    [verify_token] callback; on a falsy result the error handler answers. *)
Definition login_required {A} (req : Request) (f : M A) : M A :=
  user <- verify_auth_token (default "" (authorization req)) ;;
  match user with
  | Some _ => f
  | None => auth_failed
  end.

Fixpoint require_formdata {A} (formdata : list string) (req : Request) (func : M A) : M A :=
  match formdata with
  | [] => func
  | data :: rest =>
      if decide (form req !! data = None)
      then abort 404 ("Missing required form: '" ++ data ++ "'")
      else require_formdata rest req func
  end.

(** *** Texture validation and hashing *)

Definition repr_size (s : Z * Z) : string :=
  "(" ++ pretty (fst s) ++ ", " ++ pretty (snd s) ++ ")".

Definition gen_skin_hash (image_data : list byte) : Outcome string :=
  match Image_open image_data with
  | None => Raise "UnidentifiedImageError"
  | Some image =>
      if negb (String.eqb (format image) "PNG")
      then Abort 400 ("Format not allowed: " ++ format image)
      else
        let sizes := [64; 128; 256; 512; 1024] in
        let '(width, height) := size image in
        (* [width / 2] is true division: a rational, not a floor *)
        let valid := Qeq_bool (inject_Z width / 2)%Q (inject_Z height)
                     || (width =? height)%Z in
        if negb valid || negb (bool_decide (width ∈ sizes))
        then Abort 404 ("Unsupported image size: " ++ repr_size (size image))
        else Return (Sha1.hexdigest (tobytes image))
  end.

(** [Upload.query.filter_by(hash=skin_hash).first()]. *)
Definition Upload_first_by_hash (skin_hash : string) (w : World) : option Upload :=
  head (filter (fun u => upload_hash u = skin_hash) (uploads w)).

(** [[Metadata(key=k, value=v) for k, v in metadata.items()]]. *)
Definition metadata_rows (metadata : gmap string string) : list Metadata :=
  (fun kv => {| meta_key := fst kv; meta_value := snd kv |}) <$> map_to_list metadata.

Definition put_texture (user : User) (file : list byte) (skin_type : string)
    (metadata : gmap string string) : M unit :=
  skin_hash <- lift (gen_skin_hash file) ;;
  w <- get ;;
  upload <- match Upload_first_by_hash skin_hash w with
            | None =>
                (* with open_fs() as fs: fs.open(skin_hash, "wb").write(file) *)
                modify (fun w => set_fs (<[skin_hash := file]> (fs w)) w) ;;;
                db_session_add (NewUpload {| upload_hash := skin_hash; upload_user := user |})
            | Some u => ret (Some u)
            end ;;
  (@db_session_add unit
     (NewTexture user skin_type upload (metadata_rows metadata))) ;;;
  session_commit.

(** *** The texture resource *)

Definition get_metadata_map (f : gmap string string) : list (string * string) :=
  map_to_list f.

(** [put_texture(user, data, skin_type, **dict(metadata))]: a form field named
    like one of the three positional parameters is a [TypeError]. *)
Definition call_put_texture (user : User) (data : list byte) (skin_type : string)
    (metadata : list (string * string)) : M unit :=
  let kwargs := Py.dict metadata in
  if decide (is_Some (kwargs !! "user") ∨ is_Some (kwargs !! "file")
             ∨ is_Some (kwargs !! "skin_type"))
  then raise "TypeError"
  else put_texture user data skin_type kwargs.

Definition TextureResource_post (req : Request) (user : User) (skin_type : string)
    : M Response :=
  require_formdata ["file"] req
    (match form req !! "file" with
     | None => raise "KeyError"
     | Some url =>
         let form' := delete "file" (form req) in      (* request.form.pop("file") *)
         let resp := requests_get url in
         if negb (ok resp) then abort 400 "File download failed"
         else
           let metadata := get_metadata_map form' in
           call_put_texture user (content resp) skin_type metadata ;;;
           ret {| body := ""; status := 202 |}
     end).

Definition TextureResource_put (req : Request) (user : User) (skin_type : string)
    : M Response :=
  match files req !! "file" with
  | None => abort 400 "Missing required file: file"
  | Some file =>
      if String.eqb (filename file) ""
      then abort 400 "Empty file?"
      else
        let metadata := get_metadata_map (form req) in
        call_put_texture user (stream file) skin_type metadata ;;;
        ret {| body := ""; status := 202 |}
  end.

Definition TextureResource_delete (req : Request) (user : User) (skin_type : string)
    : M Response :=
  (@db_session_add unit (NewTexture user skin_type None [])) ;;;
  session_commit ;;;
  ret {| body := "{}"; status := 202 |}.

(** [Resource.dispatch_request]: the handler named after the HTTP method. *)
Definition Resource_dispatch_request (method : Method) (req : Request) (user : User)
    (skin_type : string) : M Response :=
  match method with
  | POST => TextureResource_post req user skin_type
  | PUT => TextureResource_put req user skin_type
  | DELETE => TextureResource_delete req user skin_type
  end.

(** [TextureResource.dispatch_request].  The call to [super()] is a statement,
    not a [return]: the method itself evaluates to [None].  [user] is what the
    route converter resolved, [None] when it found no player; past the
    ownership check it equals [g.user], which [login_required] made a player. *)
Definition dispatch_request (method : Method) (req : Request) (user : option User)
    (skin_type : string) : M (option Response) :=
  login_required req
    (if decide (skin_type ∈ blacklist)
     then abort 400 ("Type '" ++ skin_type ++ "' is not allowed. ")
     else
       w <- get ;;
       if decide (user ≠ g_user w)
       then abort 403 "Cannot change another user's textures"
       else
         match user with
         | Some u => Resource_dispatch_request method req u skin_type ;;; ret None
         | None => ret None
         end).

(** *** The user profile resource *)

(** Modelled from the spec: the query combinators of
    [Texture.query(Texture).filter_by(user=user).order_by(Texture.id).reverse().distinct(Texture.tex_type).all()];
    the query class comes with [valhalla.models], which is not under src/.
    The spec reads the chain as: the player's rows, highest identifier first,
    one row for each texture type, the first in that order. *)
Definition filter_by_user (user : User) (q : list Texture) : list Texture :=
  filter (fun t => user_id (tex_user t) = user_id user) q.

Definition order_by_id (q : list Texture) : list Texture :=
  merge_sort tex_le q.

Fixpoint distinct_from (seen : list string) (q : list Texture) : list Texture :=
  match q with
  | [] => []
  | t :: r =>
      if decide (tex_type t ∈ seen) then distinct_from seen r
      else t :: distinct_from (tex_type t :: seen) r
  end.

Definition distinct_tex_type (q : list Texture) : list Texture := distinct_from [] q.

Definition active_textures (user : User) (w : World) : list Texture :=
  distinct_tex_type (reverse (order_by_id (filter_by_user user (textures w)))).

Definition metadata_json (data : list Metadata) : list (string * string) :=
  (fun meta => (meta_key meta, meta_value meta)) <$> data.

(** The dictionary built for one row with a blob. *)
Definition texture_dic (tex : Texture) (upload : Upload) : TexEntry :=
  let metadata := Py.dict (metadata_json (tex_meta tex)) in
  {| url := root_url ++ "/textures/" ++ upload_hash upload;
     metadata := if decide (metadata = ∅) then None else Some metadata |}.

(** The generator [textures_json], as the list of pairs it yields. *)
Fixpoint textures_json (texture_list : list Texture) : list (string * TexEntry) :=
  match texture_list with
  | [] => []
  | tex :: rest =>
      let typ := Py.upper (tex_type tex) in
      match tex_upload tex with
      | None => textures_json rest
      | Some upload => (typ, texture_dic tex upload) :: textures_json rest
      end
  end.

(** [UserResource.get]; [now] is the clock read for [timestamp].  The second
    loop over [active] in the source builds dictionaries it never uses. *)
Definition UserResource_get (user : option User) (now : Z) (w : World) : Outcome Profile :=
  match user with
  | None => Abort 404 "User not found"
  | Some user =>
      let active := active_textures user w in
      let textures := Py.dict (textures_json active) in
      if decide (textures = ∅) then Abort 404 "Skins not found"
      else Return {| timestamp := now; profileId := user_uuid user;
                     profileName := user_name user; profile_textures := textures |}
  end.

(** *** Login *)

(** [User.query.filter_by(uuid=uuid).one_or_none()]. *)
Definition User_one_or_none (uuid : string) (w : World) : Outcome (option User) :=
  match filter (fun u => user_uuid u = uuid) (users w) with
  | [] => Return None
  | [u] => Return (Some u)
  | _ => Raise "MultipleResultsFound"
  end.

Definition get_or_create_user (uuid name : string) : M User :=
  w <- get ;;
  found <- lift (User_one_or_none uuid w) ;;
  match found with
  | None =>
      let user := {| user_id := None; user_uuid := uuid; user_name := name |} in
      (@db_session_add unit (NewUser user)) ;;;
      ret user
  | Some user =>
      (* user.name = name marks the loaded row dirty *)
      modify (fun w => set_session (session w ++ [DirtyName user name]) w) ;;;
      session_commit ;;;
      ret {| user_id := user_id user; user_uuid := user_uuid user; user_name := name |}
  end.

(** [request.form[key]]: a missing key is werkzeug's 400. *)
Definition form_getitem (req : Request) (key : string) : M string :=
  match form req !! key with
  | Some v => ret v
  | None => abort 400 "BadRequestKeyError"
  end.

(** [validate_tokens[name]] and [del validate_tokens[name]]. *)
Definition validate_tokens_getitem (name : string) : M (Z * string) :=
  w <- get ;;
  match validate_tokens w !! name with
  | Some entry => ret entry
  | None => raise "KeyError"
  end.

Definition validate_tokens_delitem (name : string) : M unit :=
  w <- get ;;
  match validate_tokens w !! name with
  | Some _ => modify (set_validate_tokens (delete name (validate_tokens w)))
  | None => raise "KeyError"
  end.

(** [AuthResponseResource.post].  The cache is read as it stands when the
    request runs: an entry that has aged out is not in it. *)
Definition AuthResponseResource_post (req : Request) : M Login :=
  if offline_mode then abort 501 ""
  else
    name <- form_getitem req "name" ;;
    vt <- form_getitem req "verifyToken" ;;
    verify_token <- match Py.int_ vt with
                    | Some n => ret n
                    | None => raise "ValueError"
                    end ;;
    w <- get ;;
    if decide (validate_tokens w !! name = None)
    then abort 403 "The user has not requested a token or it has expired"
    else
      try_finally
        (entry <- validate_tokens_getitem name ;;
         let '(token, addr) := entry in
         if decide (token ≠ verify_token)
         then abort 403 "The verify token is not valid"
         else if decide (addr ≠ remote_addr req)
         then abort 403 "IP does not match"
         else ret tt)
        (validate_tokens_delitem name) ;;;
      let response := has_joined name server_id (remote_addr req) in
      if negb (joined_ok response) then abort 403 ""
      else
        let uuid := joined_id response in
        let name := joined_name response in
        user <- get_or_create_user uuid name ;;
        let token := "Bearer " ++ gen_auth_token user 3600 in
        ret {| accessToken := token; userId := user_uuid user;
               login_status := 200; Authorization := token |}.

(** [validate_tokens[name] = value] on the [ExpiringDict]: the library stores
    the entry and decides what else leaves the cache (at most 100 entries,
    each for 30 seconds). *)
Variable validate_tokens_setitem :
  string -> Z * string -> gmap string (Z * string) -> gmap string (Z * string).

(** [AuthHandshakeResource.post]; [getrandbits32] is the value drawn by
    [random.getrandbits(32)]. *)
Definition AuthHandshakeResource_post (req : Request) (getrandbits32 : Z) : M Handshake :=
  name <- form_getitem req "name" ;;
  let verify_token := getrandbits32 in
  modify (fun w =>
    set_validate_tokens
      (validate_tokens_setitem name (verify_token, remote_addr req) (validate_tokens w))
      w) ;;;
  ret {| offline := offline_mode; serverId := server_id; verifyToken := verify_token |}.

End Api.

(** ** A driver: the same client uploading again and again *)

(** One [put_texture] call for each request, each in a request of its own. *)
Fixpoint put_textures (Image_open : list byte -> option Image)
    (calls : list (User * list byte * string * gmap string string)) (w : World) : World :=
  match calls with
  | [] => w
  | (user, file, skin_type, metadata) :: rest =>
      put_textures Image_open rest
        (teardown_request (snd (put_texture Image_open user file skin_type metadata w)))
  end.

(** ** Vocabulary of the statements *)




(** Between requests: nothing pending, one blob row for each hash, and a
    stored object behind every blob row. *)
Definition blobs_consistent (w : World) : Prop :=
  session w = []
  /\ NoDup (upload_hash <$> uploads w)
  /\ (forall u, u ∈ uploads w -> is_Some (fs w !! upload_hash u)).

(** ** Fixtures: concrete stand-ins for the outside, to run the model *)

(** A toy image container: a tag byte ([P] or [p] for PNG, [J] for JPEG), the
    width and the height as two big-endian bytes each, then the pixels. *)
Definition toy_open (data : list byte) : option Image :=
  match data with
  | tag :: wh :: wl :: hh :: hl :: pixels =>
      let num (a b : byte) := Z.of_N (Byte.to_N a) * 256 + Z.of_N (Byte.to_N b) in
      let image (fmt : string) :=
        Some {| format := fmt; size := (num wh wl, num hh hl); tobytes := pixels |} in
      match tag with
      | x50 | x70 => image "PNG"
      | x4a => image "JPEG"
      | _ => None
      end
  | _ => None
  end.

(** Tokens [tok<digit>] carry that digit as the player id, [tokNone] carries
    no id, [old] has expired. *)
Definition toy_loads (token : string) : Loaded :=
  match token with
  | String "t" (String "o" (String "k" (String c EmptyString))) =>
      match Py.digit c with
      | Some n => Payload (Some n)
      | None => BadSignature
      end
  | "tokNone" => Payload None
  | "old" => SignatureExpired
  | _ => BadSignature
  end.

Definition toy_dumps (id : option Z) (expiration : Z) : string :=
  match id with
  | Some n => "tok" ++ pretty n
  | None => "tokNone"
  end.

(** Every download succeeds and yields a 64 by 64 toy PNG. *)
Definition toy_get (url : string) : HttpResponse :=
  {| ok := true; text := ""; content := [x50; x00; x40; x00; x40; x01; x02] |}.

(** The session server confirms every name, under the account [uuid-<name>]. *)
Definition toy_has_joined (name server addr : string) : Joined :=
  {| joined_ok := true; joined_id := "uuid-" ++ name; joined_name := name |}.

Definition alice : User :=
  {| user_id := Some 1; user_uuid := "uuid-alice"; user_name := "alice" |}.

Definition world0 : World :=
  {| users := [alice]; uploads := []; textures := []; session := []; commits := 0;
     fs := ∅; validate_tokens := ∅; g_user := None |}.

Definition png64 : list byte := [x50; x00; x40; x00; x40; x01; x02].
Definition png64_reencoded : list byte := [x70; x00; x40; x00; x40; x01; x02].
Definition png64x32 : list byte := [x50; x00; x40; x00; x20; x07].
Definition png100 : list byte := [x50; x00; x64; x00; x64; x07].
Definition png70 : list byte := [x50; x00; x46; x00; x46; x07].
Definition jpeg64 : list byte := [x4a; x00; x40; x00; x40; x01; x02].

Definition cfg0 : Config.t := Config.load ∅.

Definition bob_wrong_token : Request :=
  {| form := {[ "name" := "bob"; "verifyToken" := "1" ]}; files := ∅;
     remote_addr := "10.0.0.2"; authorization := None |}.

Definition bob_pending : World :=
  set_validate_tokens {[ "bob" := (4711, "10.0.0.2") ]} world0.

Definition bob_response : Request :=
  {| form := {[ "name" := "bob"; "verifyToken" := "4711" ]}; files := ∅;
     remote_addr := "10.0.0.2"; authorization := None |}.



(** Handshakes of bob, and the cache write as a plain insertion. *)
Definition bob_handshake : Request :=
  {| form := {[ "name" := "bob" ]}; files := ∅; remote_addr := "10.0.0.2";
     authorization := None |}.

Definition toy_setitem (name : string) (entry : Z * string)
    (cache : gmap string (Z * string)) : gmap string (Z * string) :=
  <[name := entry]> cache.


Definition bare_request : Request :=
  {| form := ∅; files := ∅; remote_addr := "10.0.0.1"; authorization := Some "tok1" |}.

Definition blob_a : Upload := {| upload_hash := "aaaa"; upload_user := alice |}.
Definition blob_b : Upload := {| upload_hash := "bbbb"; upload_user := alice |}.

Definition history_row (id : Z) (typ : string) (upload : option Upload) : Texture :=
  {| tex_id := id; tex_user := alice; tex_type := typ; tex_upload := upload;
     tex_meta := [] |}.

Definition with_textures (rows : list Texture) : World :=
  {| users := [alice]; uploads := [blob_a; blob_b]; textures := rows; session := [];
     commits := 0; fs := ∅; validate_tokens := ∅; g_user := None |}.

(** A skin uploaded twice, a hat uploaded and then removed. *)
Definition world_history : World :=
  with_textures [history_row 1 "skin" (Some blob_a); history_row 2 "hat" (Some blob_a);
                 history_row 3 "skin" (Some blob_b); history_row 4 "hat" None].


(** The world after alice's first upload of [png64] as her skin. *)
Definition world_uploaded : World :=
  put_textures toy_open [(alice, png64, "skin", ∅)] world0.


(** * Properties *)

(** ** The building blocks run as the libraries they stand for *)

Example sha1_abc :
  Sha1.hexdigest (list_byte_of_string "abc") = "a9993e364706816aba3e25717850c26c9cd0d89d".
Proof. vm_compute. reflexivity. Qed.

Example sha1_empty :
  Sha1.hexdigest [] = "da39a3ee5e6b4b0d3255bfef95601890afd80709".
Proof. vm_compute. reflexivity. Qed.

Example sha1_two_blocks :
  Sha1.hexdigest
    (list_byte_of_string "abcdbcdecdefdefgefghfghighijhijkijkljklmklmnlmnomnopnopq")
  = "84983e441c3bd26ebaae4aa1f95129e5e54670f1".
Proof. vm_compute. reflexivity. Qed.

Example int_examples :
  Py.int_ "4711" = Some 4711 /\ Py.int_ "-3" = Some (-3) /\ Py.int_ "12a" = None
  /\ Py.int_ "" = None.
Proof. vm_compute. repeat split. Qed.

Example upper_example : Py.upper "Skin_2" = "SKIN_2".
Proof. reflexivity. Qed.

(** ** Configuration *)

Lemma bool_of_str (s : string) : Py.bool_ (Py.VStr s) = true <-> s <> "".
Proof.
  simpl. rewrite negb_true_iff. split.
  - intros H ->. discriminate.
  - intros H. apply String.eqb_neq. exact H.
Qed.

(** C9: [OFFLINE] is true exactly when the environment variable [OFFLINE] is
    set to a non-empty string; the strings [false] and [0] switch offline
    mode on, an empty or unset variable leaves it off. *)
Theorem offline_iff_env_nonempty (environ : gmap string string) :
  (Config.OFFLINE (Config.load environ) = true
   <-> exists s, environ !! "OFFLINE" = Some s /\ s <> "")
  /\ Config.OFFLINE (Config.load (<["OFFLINE" := "false"]> environ)) = true
  /\ Config.OFFLINE (Config.load (<["OFFLINE" := "0"]> environ)) = true
  /\ Config.OFFLINE (Config.load (<["OFFLINE" := ""]> environ)) = false
  /\ Config.OFFLINE (Config.load (delete "OFFLINE" environ)) = false.
Proof.
  unfold Config.load, Py.getenv; cbn [Config.OFFLINE].
  repeat split.
  - destruct (environ !! "OFFLINE") as [s|] eqn:E.
    + intros H. exists s. split; [reflexivity | by apply bool_of_str].
    + discriminate.
  - intros (s & -> & Hs). by apply bool_of_str.
  - by rewrite lookup_insert_eq.
  - by rewrite lookup_insert_eq.
  - by rewrite lookup_insert_eq.
  - by rewrite lookup_delete_eq.
Qed.

(** ** Texture validation *)

Lemma half_is_height (width height : Z) :
  Qeq_bool (inject_Z width / 2)%Q (inject_Z height) = true <-> width = 2 * height.
Proof.
  rewrite Qeq_bool_iff. unfold Qeq, Qdiv, Qmult, Qinv, inject_Z. simpl. lia.
Qed.

Lemma valid_shape (width height : Z) :
  Qeq_bool (inject_Z width / 2)%Q (inject_Z height) || (width =? height)%Z = true
  <-> width = height \/ width = 2 * height.
Proof.
  rewrite orb_true_iff, half_is_height, Z.eqb_eq. tauto.
Qed.

(** What [gen_skin_hash] returns when it returns. *)
Lemma gen_skin_hash_Return Image_open data h :
  gen_skin_hash Image_open data = Return h <->
  exists image, Image_open data = Some image /\ format image = "PNG"
    /\ (fst (size image) = snd (size image) \/ fst (size image) = 2 * snd (size image))
    /\ fst (size image) ∈ [64; 128; 256; 512; 1024]
    /\ h = Sha1.hexdigest (tobytes image).
Proof.
  unfold gen_skin_hash. split.
  - destruct (Image_open data) as [image|]; [|discriminate].
    destruct (String.eqb (format image) "PNG") eqn:Ef; simpl; [|discriminate].
    destruct (size image) as [width height] eqn:Es.
    destruct (Qeq_bool _ _ || _) eqn:Ev; simpl; [|discriminate].
    case_bool_decide as Hw; simpl; [|discriminate].
    intros [= <-]. exists image. rewrite Es. simpl.
    repeat split; try done.
    + by apply String.eqb_eq.
    + by apply valid_shape.
  - intros (image & -> & Hf & Hshape & Hw & ->).
    apply String.eqb_eq in Hf. rewrite Hf. simpl.
    destruct (size image) as [width height]. simpl in *.
    apply valid_shape in Hshape. rewrite Hshape. simpl.
    rewrite bool_decide_eq_true_2 by done. reflexivity.
Qed.

(** C4: validation succeeds exactly for bytes that decode as a PNG whose
    width equals its height or twice its height and is one of 64, 128, 256,
    512, 1024; everything else is turned away. *)
Theorem gen_skin_hash_accepts_iff (Image_open : list byte -> option Image)
    (data : list byte) :
  (exists h, gen_skin_hash Image_open data = Return h) <->
  (exists image, Image_open data = Some image /\ format image = "PNG"
    /\ (fst (size image) = snd (size image) \/ fst (size image) = 2 * snd (size image))
    /\ fst (size image) ∈ [64; 128; 256; 512; 1024]).
Proof.
  split.
  - intros [h Hh]. apply gen_skin_hash_Return in Hh as (image & ? & ? & ? & ? & _).
    by exists image.
  - intros (image & ? & ? & ? & ?). exists (Sha1.hexdigest (tobytes image)).
    apply gen_skin_hash_Return. by exists image.
Qed.

(** The sizes the specification lists, on the toy container. *)
Example validation_examples :
  gen_skin_hash toy_open png64 = Return "0ca623e2855f2c75c842ad302fe820e41b4d197d"
  /\ gen_skin_hash toy_open png64x32 = Return "5d1be7e9dda1ee8896be5b7e34a85ee16452a7b4"
  /\ gen_skin_hash toy_open png100 = Abort 404 "Unsupported image size: (100, 100)"
  /\ gen_skin_hash toy_open png70 = Abort 404 "Unsupported image size: (70, 70)"
  /\ gen_skin_hash toy_open jpeg64 = Abort 400 "Format not allowed: JPEG"
  /\ gen_skin_hash toy_open [] = Raise "UnidentifiedImageError".
Proof. vm_compute. repeat split. Qed.

(** ** Authentication of protected requests *)

(** Unfolds the monad's operations in the goal. *)
Ltac run_M :=
  unfold bind, ret, abort, raise, lift, get, modify, auth_failed; cbn beta iota.

Lemma verify_auth_token_unknown loads token id w :
  loads token = Payload id -> User_get id w = None ->
  verify_auth_token loads token w = (Return None, set_g_user None w).
Proof.
  intros Hl Hu. unfold verify_auth_token. rewrite Hl. run_M. by rewrite Hu.
Qed.

Lemma verify_auth_token_known loads token id u w :
  loads token = Payload id -> User_get id w = Some u ->
  verify_auth_token loads token w = (Return (Some u), set_g_user (Some u) w).
Proof.
  intros Hl Hu. unfold verify_auth_token. rewrite Hl. run_M. by rewrite Hu.
Qed.

(** C10: a token that verifies (good signature, not expired) and names a
    player id with no row makes the verify callback return [None]; the
    protected handler is not run and the request is answered 401. *)
Theorem unknown_player_token_unauthorized (loads : string -> Loaded) (cfg : Config.t)
    (Image_open : list byte -> option Image) (requests_get : string -> HttpResponse)
    (token : string) (id : option Z) (w : World) :
  loads token = Payload id ->
  User_get id w = None ->
  verify_auth_token loads token w = (Return None, set_g_user None w)
  /\ (forall (A : Type) (f : M A) (req : Request),
        authorization req = Some token ->
        login_required loads req f w = (Abort 401 "", set_g_user None w))
  /\ (forall (method : Method) (req : Request) (user : option User) (skin_type : string),
        authorization req = Some token ->
        dispatch_request Image_open loads requests_get cfg method req user skin_type w
        = (Abort 401 "", set_g_user None w)).
Proof.
  intros Hl Hu.
  assert (Hlr : forall (A : Type) (f : M A) (req : Request),
             authorization req = Some token ->
             login_required loads req f w = (Abort 401 "", set_g_user None w)).
  { intros A f req Hreq. unfold login_required. rewrite Hreq. simpl.
    unfold bind at 1. by rewrite (verify_auth_token_unknown _ _ _ _ Hl Hu). }
  split; [by apply verify_auth_token_unknown with id |].
  split; [exact Hlr |].
  intros method req user skin_type Hreq. unfold dispatch_request. by apply Hlr.
Qed.

(** The token [tok7] is well signed and names player 7; only player 1 exists. *)
Lemma unknown_player_token_unauthorized_witness :
  verify_auth_token toy_loads "tok7" world0 = (Return None, set_g_user None world0)
  /\ dispatch_request toy_open toy_loads toy_get cfg0 DELETE
       {| form := ∅; files := ∅; remote_addr := "10.0.0.1";
          authorization := Some "tok7" |} (Some alice) "skin" world0
     = (Abort 401 "", set_g_user None world0).
Proof.
  destruct (unknown_player_token_unauthorized toy_loads cfg0 toy_open toy_get
              "tok7" (Some 7) world0 eq_refl eq_refl) as (Hv & _ & Hd).
  split; [exact Hv | apply Hd; reflexivity].
Defined.

(** An expired or malformed token is answered 401 by the callback itself. *)
Lemma verify_auth_token_rejects loads token w :
  (loads token = SignatureExpired ->
   verify_auth_token loads token w = (Abort 401 "Token expired", w))
  /\ (loads token = BadSignature ->
      verify_auth_token loads token w = (Abort 401 "Bad token", w)).
Proof. split; intros H; unfold verify_auth_token; by rewrite H. Qed.

(** ** The texture resource *)

Lemma require_formdata_file {A} (req : Request) (func : M A) (w : World) :
  require_formdata ["file"] req func w =
  match form req !! "file" with
  | None => (Abort 404 "Missing required form: 'file'", w)
  | Some _ => func w
  end.
Proof.
  simpl. destruct (form req !! "file"); by case_decide.
Qed.

(** C3, as the code has it: an upload by reference without the form field
    [file] is stopped by [require_formdata] with status 404, where the claim
    and the sibling handler [put] say 400; nothing is changed. *)
Theorem post_without_file_aborts_404 (Image_open : list byte -> option Image)
    (requests_get : string -> HttpResponse) (req : Request) (user : User)
    (skin_type : string) (w : World) :
  form req !! "file" = None ->
  TextureResource_post Image_open requests_get req user skin_type w
  = (Abort 404 "Missing required form: 'file'", w).
Proof.
  intros H. unfold TextureResource_post. rewrite require_formdata_file. by rewrite H.
Qed.

Lemma post_without_file_aborts_404_witness :
  TextureResource_post toy_open toy_get
    {| form := {[ "model" := "slim" ]}; files := ∅; remote_addr := "10.0.0.1";
       authorization := Some "tok1" |} alice "skin" world0
  = (Abort 404 "Missing required form: 'file'", world0).
Proof.
  apply (post_without_file_aborts_404 toy_open toy_get); reflexivity.
Defined.

(** The sibling: a direct upload without the file part is a 400. *)
Lemma put_without_file_aborts_400 Image_open req user skin_type w :
  files req !! "file" = None ->
  TextureResource_put Image_open req user skin_type w
  = (Abort 400 "Missing required file: file", w).
Proof. intros H. unfold TextureResource_put. by rewrite H. Qed.

Lemma bind_const_Return {A B} (c : M A) (b r : B) (w : World) :
  fst ((c ;;; ret b) w) = Return r -> r = b.
Proof.
  run_M. destruct (c w) as [[a| |] w1]; simpl; congruence.
Qed.




(** When the handlers do return: a removal always; a direct upload when the
    part has a file name, no form field shadows a parameter of [put_texture]
    and the image is accepted; an upload by reference likewise, when the
    download succeeds. *)
Lemma put_texture_returns Image_open user file skin_type metadata w h :
  gen_skin_hash Image_open file = Return h ->
  fst (put_texture Image_open user file skin_type metadata w) = Return tt.
Proof.
  intros Hh. unfold put_texture, db_session_add, session_commit. run_M.
  rewrite Hh. cbn beta iota. by destruct (Upload_first_by_hash h w).
Qed.

Lemma no_shadowing (kwargs : gmap string string) :
  kwargs !! "user" = None -> kwargs !! "file" = None -> kwargs !! "skin_type" = None ->
  ~ (is_Some (kwargs !! "user") \/ is_Some (kwargs !! "file")
     \/ is_Some (kwargs !! "skin_type")).
Proof.
  intros -> -> -> [H|[H|H]]; by apply is_Some_None in H.
Qed.

Lemma delete_returns req user skin_type w :
  fst (TextureResource_delete req user skin_type w)
  = Return {| body := "{}"; status := 202 |}.
Proof. reflexivity. Qed.

Lemma put_returns Image_open req user skin_type w file h :
  files req !! "file" = Some file ->
  filename file <> "" ->
  Py.dict (get_metadata_map (form req)) !! "user" = None ->
  Py.dict (get_metadata_map (form req)) !! "file" = None ->
  Py.dict (get_metadata_map (form req)) !! "skin_type" = None ->
  gen_skin_hash Image_open (stream file) = Return h ->
  fst (TextureResource_put Image_open req user skin_type w)
  = Return {| body := ""; status := 202 |}.
Proof.
  intros Hf Hn Hu Hfl Hs Hh. unfold TextureResource_put, call_put_texture.
  rewrite Hf. apply String.eqb_neq in Hn. rewrite Hn.
  rewrite decide_False by (by apply no_shadowing).
  unfold bind at 1.
  pose proof (put_texture_returns Image_open user (stream file) skin_type
                (Py.dict (get_metadata_map (form req))) w h Hh) as Hr.
  destruct (put_texture _ _ _ _ _ w) as [o w1]. simpl in Hr. by subst o.
Qed.

Lemma post_returns Image_open requests_get req user skin_type w url h :
  form req !! "file" = Some url ->
  ok (requests_get url) = true ->
  Py.dict (get_metadata_map (delete "file" (form req))) !! "user" = None ->
  Py.dict (get_metadata_map (delete "file" (form req))) !! "skin_type" = None ->
  gen_skin_hash Image_open (content (requests_get url)) = Return h ->
  fst (TextureResource_post Image_open requests_get req user skin_type w)
  = Return {| body := ""; status := 202 |}.
Proof.
  intros Hf Hok Hu Hs Hh. unfold TextureResource_post, call_put_texture.
  rewrite require_formdata_file, Hf. cbv zeta. rewrite Hok. cbn [negb].
  assert (Hfl : Py.dict (get_metadata_map (delete "file" (form req))) !! "file" = None).
  { unfold Py.dict, get_metadata_map. apply not_elem_of_list_to_map.
    rewrite fmap_reverse, elem_of_reverse. intros Hin.
    apply list_elem_of_fmap in Hin as ([k v] & Ek & Hin). simpl in Ek. subst k.
    apply elem_of_map_to_list in Hin. by rewrite lookup_delete_eq in Hin. }
  rewrite decide_False by (by apply no_shadowing).
  unfold bind at 1.
  pose proof (put_texture_returns Image_open user (content (requests_get url)) skin_type
                (Py.dict (get_metadata_map (delete "file" (form req)))) w h Hh) as Hr.
  destruct (put_texture _ _ _ _ _ w) as [o w1]. simpl in Hr. by subst o.
Qed.

(** What [login_required] lets through: the handler, with [g.user] set. *)
Lemma login_required_known {A} loads req (f : M A) token id u w :
  authorization req = Some token -> loads token = Payload id ->
  User_get id w = Some u ->
  login_required loads req f w = f (set_g_user (Some u) w).
Proof.
  intros Hreq Hl Hu. unfold login_required. rewrite Hreq. simpl.
  unfold bind at 1. by rewrite (verify_auth_token_known _ _ _ _ _ Hl Hu).
Qed.

(** [TextureResource.dispatch_request] drops what the verb handler returned:
    whenever it returns, it returns [None]. *)
Lemma dispatch_request_returns_None Image_open loads requests_get cfg method req user
    skin_type w r :
  fst (dispatch_request Image_open loads requests_get cfg method req user skin_type w)
  = Return r -> r = None.
Proof.
  unfold dispatch_request, login_required. unfold bind at 1.
  destruct (verify_auth_token _ _ w) as [[[u|]| |] w1]; simpl; try discriminate.
  case_decide; [discriminate|].
  unfold bind at 1, get at 1. case_decide; [discriminate|].
  destruct user as [u'|].
  - intros Hr. by apply bind_const_Return in Hr.
  - by intros [= <-].
Qed.

(** Past [login_required] and the ownership check the path's player is the
    authenticated one: the handler never runs without a player. *)
Lemma dispatch_request_owner_is_player Image_open loads requests_get cfg method req
    skin_type w r :
  fst (dispatch_request Image_open loads requests_get cfg method req None skin_type w)
  <> Return r.
Proof.
  unfold dispatch_request, login_required. unfold bind at 1, verify_auth_token.
  destruct (loads _); try (simpl; discriminate).
  run_M. destruct (User_get id w) as [u|] eqn:E; simpl; [|discriminate].
  case_decide; [discriminate|]. case_decide as Hown; [discriminate|].
  simpl in Hown. discriminate Hown.
Qed.

(** ** The database session *)

Lemma flush_frame (p : Pending) (w : World) :
  fs (flush w p) = fs w /\ validate_tokens (flush w p) = validate_tokens w
  /\ commits (flush w p) = commits w /\ session (flush w p) = session w
  /\ g_user (flush w p) = g_user w.
Proof. by destruct p. Qed.

Lemma foldl_flush_frame (ps : list Pending) (w : World) :
  fs (foldl flush w ps) = fs w
  /\ validate_tokens (foldl flush w ps) = validate_tokens w
  /\ commits (foldl flush w ps) = commits w.
Proof.
  revert w. induction ps as [|p ps IH]; intros w; simpl; [done|].
  destruct (IH (flush w p)) as (-> & -> & ->). by destruct p.
Qed.

(** Rows that are not users leave the users table alone, and so on. *)
Lemma flush_texture_tables user typ upload meta w :
  users (flush w (NewTexture user typ upload meta)) = users w
  /\ uploads (flush w (NewTexture user typ upload meta)) = uploads w.
Proof. done. Qed.

(** ** Storing a texture *)

(** [put_texture] on content no blob exists for. *)
Lemma put_texture_new Image_open user file skin_type metadata w h :
  session w = [] ->
  gen_skin_hash Image_open file = Return h ->
  Upload_first_by_hash h w = None ->
  put_texture Image_open user file skin_type metadata w =
  (Return tt,
   {| users := users w;
      uploads := uploads w ++ [{| upload_hash := h; upload_user := user |}];
      textures := textures w ++
        [{| tex_id := next_id (tex_id <$> textures w); tex_user := user;
            tex_type := skin_type; tex_upload := None;
            tex_meta := metadata_rows metadata |}];
      session := []; commits := S (commits w); fs := <[h := file]> (fs w);
      validate_tokens := validate_tokens w; g_user := g_user w |}).
Proof.
  intros Hs Hh Hq. unfold put_texture, db_session_add, session_commit. run_M.
  rewrite Hh. cbn beta iota. rewrite Hq. cbn beta iota.
  destruct w; simpl in *; subst. reflexivity.
Qed.

(** [put_texture] on content a blob exists for. *)
Lemma put_texture_existing Image_open user file skin_type metadata w h u :
  session w = [] ->
  gen_skin_hash Image_open file = Return h ->
  Upload_first_by_hash h w = Some u ->
  put_texture Image_open user file skin_type metadata w =
  (Return tt,
   {| users := users w; uploads := uploads w;
      textures := textures w ++
        [{| tex_id := next_id (tex_id <$> textures w); tex_user := user;
            tex_type := skin_type; tex_upload := Some u;
            tex_meta := metadata_rows metadata |}];
      session := []; commits := S (commits w); fs := fs w;
      validate_tokens := validate_tokens w; g_user := g_user w |}).
Proof.
  intros Hs Hh Hq. unfold put_texture, db_session_add, session_commit. run_M.
  rewrite Hh. cbn beta iota. rewrite Hq. cbn beta iota.
  destruct w; simpl in *; subst. reflexivity.
Qed.

(** A rejected upload changes nothing. *)
Lemma put_texture_rejected Image_open user file skin_type metadata w :
  (forall h, gen_skin_hash Image_open file <> Return h) ->
  snd (put_texture Image_open user file skin_type metadata w) = w
  /\ fst (put_texture Image_open user file skin_type metadata w) <> Return tt.
Proof.
  intros Hh. unfold put_texture. run_M.
  destruct (gen_skin_hash Image_open file) as [h| |]; [by destruct (Hh h)| |]; done.
Qed.

(** C1, as the code has it: the first upload of new content writes the bytes
    and the blob row, and records a history row whose blob reference is
    absent, where the claim says it references the new blob. *)
Theorem first_upload_row_has_no_blob (Image_open : list byte -> option Image)
    (user : User) (file : list byte) (skin_type : string)
    (metadata : gmap string string) (w : World) (h : string) :
  session w = [] ->
  gen_skin_hash Image_open file = Return h ->
  Upload_first_by_hash h w = None ->
  fst (put_texture Image_open user file skin_type metadata w) = Return tt
  /\ uploads (snd (put_texture Image_open user file skin_type metadata w))
     = (uploads w ++ [{| upload_hash := h; upload_user := user |}])%list
  /\ fs (snd (put_texture Image_open user file skin_type metadata w)) !! h = Some file
  /\ exists row,
       textures (snd (put_texture Image_open user file skin_type metadata w))
       = (textures w ++ [row])%list
       /\ tex_user row = user /\ tex_type row = skin_type /\ tex_upload row = None.
Proof.
  intros Hs Hh Hq. rewrite (put_texture_new _ _ _ _ _ _ _ Hs Hh Hq). simpl.
  repeat split; [by rewrite lookup_insert_eq|].
  eexists. repeat split.
Qed.

Lemma first_upload_row_has_no_blob_witness :
  uploads (snd (put_texture toy_open alice png64 "skin" ∅ world0))
  = [{| upload_hash := "0ca623e2855f2c75c842ad302fe820e41b4d197d"; upload_user := alice |}]
  /\ exists row,
       textures (snd (put_texture toy_open alice png64 "skin" ∅ world0)) = [row]
       /\ tex_upload row = None.
Proof.
  destruct (first_upload_row_has_no_blob toy_open alice png64 "skin" ∅ world0
              "0ca623e2855f2c75c842ad302fe820e41b4d197d")
    as (_ & Hu & _ & row & Ht & _ & _ & Hn);
    [reflexivity | vm_compute; reflexivity | vm_compute; reflexivity |].
  split; [exact Hu |]. exists row. split; [exact Ht | exact Hn].
Defined.

(** The second, byte-identical upload finds the blob and references it. *)
Lemma second_upload_row_has_blob Image_open user file skin_type metadata w h u :
  session w = [] ->
  gen_skin_hash Image_open file = Return h ->
  Upload_first_by_hash h w = Some u ->
  exists row,
    textures (snd (put_texture Image_open user file skin_type metadata w))
    = (textures w ++ [row])%list
    /\ tex_upload row = Some u /\ upload_hash u = h.
Proof.
  intros Hs Hh Hq. rewrite (put_texture_existing _ _ _ _ _ _ _ _ Hs Hh Hq). simpl.
  eexists. repeat split.
  unfold Upload_first_by_hash in Hq. apply head_Some_elem_of in Hq.
  by apply list_elem_of_filter in Hq as [? _].
Qed.

(** ** Login *)

Lemma get_or_create_user_new uuid name w :
  filter (fun u => user_uuid u = uuid) (users w) = [] ->
  get_or_create_user uuid name w =
  (Return {| user_id := None; user_uuid := uuid; user_name := name |},
   set_session
     (session w ++ [NewUser {| user_id := None; user_uuid := uuid; user_name := name |}])
     w).
Proof.
  intros H. unfold get_or_create_user, User_one_or_none, db_session_add. run_M.
  by rewrite H.
Qed.

Lemma get_or_create_user_existing uuid name u w :
  filter (fun u => user_uuid u = uuid) (users w) = [u] ->
  fst (get_or_create_user uuid name w)
  = Return {| user_id := user_id u; user_uuid := user_uuid u; user_name := name |}
  /\ commits (snd (get_or_create_user uuid name w)) = S (commits w)
  /\ session (snd (get_or_create_user uuid name w)) = [].
Proof.
  intros H. unfold get_or_create_user, User_one_or_none, session_commit. run_M.
  rewrite H. cbn beta iota. simpl.
  by destruct (foldl_flush_frame
                 (session w ++ [DirtyName u name])
                 (set_session (session w ++ [DirtyName u name]) w)) as (_ & _ & ->).
Qed.

(** The guarded block of [AuthResponseResource.post]: whatever the
    comparisons say, the entry is deleted on the way out. *)
Lemma examine_entry (req : Request) (name : string) (n token : Z) (addr : string)
    (w : World) :
  validate_tokens w !! name = Some (token, addr) ->
  try_finally
    (entry <- validate_tokens_getitem name ;;
     let '(token, addr) := entry in
     if decide (token ≠ n) then abort 403 "The verify token is not valid"
     else if decide (addr ≠ remote_addr req) then abort 403 "IP does not match"
     else ret tt)
    (validate_tokens_delitem name) w
  = (if decide (token ≠ n) then Abort 403 "The verify token is not valid"
     else if decide (addr ≠ remote_addr req) then Abort 403 "IP does not match"
     else Return tt,
     set_validate_tokens (delete name (validate_tokens w)) w).
Proof.
  intros Hentry. unfold try_finally, validate_tokens_getitem, validate_tokens_delitem.
  run_M. rewrite Hentry. cbn beta iota.
  repeat case_decide; cbn beta iota; by rewrite Hentry.
Qed.

(** The steps of [AuthResponseResource.post] up to the session check, when a
    pending entry exists: the entry is gone, whatever the comparisons said. *)
Lemma response_examines_entry dumps has_joined cfg server_id req name vt n token addr w :
  Config.OFFLINE cfg = false ->
  form req !! "name" = Some name ->
  form req !! "verifyToken" = Some vt ->
  Py.int_ vt = Some n ->
  validate_tokens w !! name = Some (token, addr) ->
  let w1 := set_validate_tokens (delete name (validate_tokens w)) w in
  AuthResponseResource_post dumps has_joined cfg server_id req w =
  if decide (token ≠ n) then (Abort 403 "The verify token is not valid", w1)
  else if decide (addr ≠ remote_addr req) then (Abort 403 "IP does not match", w1)
  else
    let response := has_joined name server_id (remote_addr req) in
    if negb (joined_ok response) then (Abort 403 "", w1)
    else
      (user <- get_or_create_user (joined_id response) (joined_name response) ;;
       let token := "Bearer " ++ gen_auth_token dumps user 3600 in
       ret {| accessToken := token; userId := user_uuid user;
              login_status := 200; Authorization := token |}) w1.
Proof.
  intros Hoff Hname Hvt Hint Hentry w1.
  unfold AuthResponseResource_post, offline_mode, form_getitem. rewrite Hoff, Hname.
  unfold bind at 1, ret at 1. rewrite Hvt. unfold bind at 1, ret at 1.
  rewrite Hint. unfold bind at 1, ret at 1. unfold bind at 1, get at 1.
  rewrite decide_False by (rewrite Hentry; discriminate).
  unfold bind at 1. rewrite (examine_entry req name n token addr w Hentry). fold w1.
  repeat case_decide; try done.
  cbv zeta. by destruct (negb (joined_ok (has_joined name server_id (remote_addr req)))).
Qed.

(** C8, as the code has it: a login response for an account identifier no
    player row has yet succeeds with status 200 while [db.session.commit()]
    was never called: the new player is only pending in the session, the
    players table is unchanged, and the row is lost when the request ends. *)
Theorem new_player_login_commits_nothing (dumps : option Z -> Z -> string)
    (has_joined : string -> string -> string -> Joined) (cfg : Config.t)
    (server_id : string) (req : Request) (name vt : string) (n : Z) (w : World) :
  Config.OFFLINE cfg = false ->
  form req !! "name" = Some name ->
  form req !! "verifyToken" = Some vt ->
  Py.int_ vt = Some n ->
  validate_tokens w !! name = Some (n, remote_addr req) ->
  joined_ok (has_joined name server_id (remote_addr req)) = true ->
  filter (fun u => user_uuid u = joined_id (has_joined name server_id (remote_addr req)))
         (users w) = [] ->
  (exists login,
     fst (AuthResponseResource_post dumps has_joined cfg server_id req w) = Return login
     /\ login_status login = 200
     /\ userId login = joined_id (has_joined name server_id (remote_addr req)))
  /\ commits (snd (AuthResponseResource_post dumps has_joined cfg server_id req w))
     = commits w
  /\ users (snd (AuthResponseResource_post dumps has_joined cfg server_id req w))
     = users w
  /\ session (snd (AuthResponseResource_post dumps has_joined cfg server_id req w))
     = (session w ++
        [NewUser {| user_id := None;
                    user_uuid := joined_id (has_joined name server_id (remote_addr req));
                    user_name := joined_name (has_joined name server_id (remote_addr req))
                 |}])%list
  /\ users (teardown_request
              (snd (AuthResponseResource_post dumps has_joined cfg server_id req w)))
     = users w.
Proof.
  intros Hoff Hname Hvt Hint Hentry Hok Hnew.
  set (joined := has_joined name server_id (remote_addr req)) in *.
  set (user := {| user_id := None; user_uuid := joined_id joined;
                  user_name := joined_name joined |}).
  assert (E : AuthResponseResource_post dumps has_joined cfg server_id req w =
              (Return {| accessToken := "Bearer " ++ gen_auth_token dumps user 3600;
                         userId := joined_id joined; login_status := 200;
                         Authorization := "Bearer " ++ gen_auth_token dumps user 3600 |},
               set_session (session w ++ [NewUser user])
                 (set_validate_tokens (delete name (validate_tokens w)) w))).
  { rewrite (response_examines_entry _ _ _ _ _ _ _ _ _ _ _ Hoff Hname Hvt Hint Hentry).
    rewrite decide_False by (intros H; by apply H).
    rewrite decide_False by (intros H; by apply H).
    cbv zeta. fold joined. rewrite Hok. simpl negb. cbn iota.
    unfold bind at 1. by rewrite get_or_create_user_new by exact Hnew. }
  rewrite E. simpl. split; [|done].
  eexists. repeat split.
Qed.

Lemma new_player_login_commits_nothing_witness :
  commits (snd (AuthResponseResource_post toy_dumps toy_has_joined cfg0 "srv"
                  bob_response bob_pending)) = 0%nat
  /\ users (snd (AuthResponseResource_post toy_dumps toy_has_joined cfg0 "srv"
                   bob_response bob_pending)) = [alice].
Proof.
  destruct (new_player_login_commits_nothing toy_dumps toy_has_joined cfg0 "srv"
              bob_response "bob" "4711" 4711 bob_pending)
    as (_ & Hc & Hu & _); try (vm_compute; reflexivity).
  split; [exact Hc | exact Hu].
Defined.

(** A returning player is renamed and committed once. *)
Example returning_player_login_commits_once :
  commits (snd (get_or_create_user "uuid-alice" "alice2" world0)) = 1%nat
  /\ users (snd (get_or_create_user "uuid-alice" "alice2" world0))
     = [{| user_id := Some 1; user_uuid := "uuid-alice"; user_name := "alice2" |}].
Proof. vm_compute. split; reflexivity. Qed.

(** The write paths that do commit, commit once. *)
Lemma session_commit_once (w : World) :
  commits (snd (session_commit w)) = S (commits w)
  /\ session (snd (session_commit w)) = [].
Proof.
  unfold session_commit, modify. simpl.
  by destruct (foldl_flush_frame (session w) w) as (_ & _ & ->).
Qed.

Lemma put_texture_commits_once Image_open user file skin_type metadata w h :
  gen_skin_hash Image_open file = Return h ->
  commits (snd (put_texture Image_open user file skin_type metadata w)) = S (commits w).
Proof.
  intros Hh. unfold put_texture, db_session_add. run_M. rewrite Hh. cbn beta iota.
  destruct (Upload_first_by_hash h w); cbn beta iota;
    match goal with |- commits (snd (session_commit ?w')) = _ =>
      by destruct (session_commit_once w') as [-> _] end.
Qed.

Lemma delete_commits_once req user skin_type w :
  commits (snd (TextureResource_delete req user skin_type w)) = S (commits w).
Proof.
  unfold TextureResource_delete, db_session_add. run_M.
  match goal with |- commits (snd (let (_, _) := session_commit ?w' in _)) = _ =>
    pose proof (session_commit_once w') as [Hc _];
    destruct (session_commit w') as [[[]| |] w2] end; exact Hc.
Qed.

(** Identifiers stay distinct: a flushed row gets one above all others. *)
Lemma next_id_above (ids : list Z) (i : Z) : i ∈ ids -> i < next_id ids.
Proof.
  unfold next_id. induction ids as [|j ids IH]; [by intros ?%elem_of_nil|].
  simpl. intros [->|H]%elem_of_cons; [lia|]. specialize (IH H). lia.
Qed.

Lemma flush_keeps_ids_distinct (p : Pending) (w : World) :
  NoDup (tex_id <$> textures w) -> NoDup (tex_id <$> textures (flush w p)).
Proof.
  intros Hnd. destruct p; simpl; try done.
  rewrite fmap_app. apply NoDup_app. split; [done|]. split; [|apply NoDup_singleton].
  intros i Hi Hi'. simpl in Hi'. apply list_elem_of_singleton in Hi'. subst i.
  apply next_id_above in Hi. lia.
Qed.

(** ** The pending-verification cache *)

Lemma get_or_create_user_validate_tokens uuid name w :
  validate_tokens (snd (get_or_create_user uuid name w)) = validate_tokens w.
Proof.
  unfold get_or_create_user, User_one_or_none, db_session_add, session_commit. run_M.
  destruct (filter _ (users w)) as [|u [|u' l]]; cbn beta iota; simpl; try done.
  by destruct (foldl_flush_frame
                 (session w ++ [DirtyName u name])
                 (set_session (session w ++ [DirtyName u name]) w)) as (_ & -> & _).
Qed.

Lemma bind_validate_tokens {A B} (c : M A) (k : A -> M B) (w : World) (cache : gmap string (Z * string)) :
  validate_tokens (snd (c w)) = cache ->
  (forall a w', validate_tokens w' = cache -> validate_tokens (snd (k a w')) = cache) ->
  validate_tokens (snd (bind c k w)) = cache.
Proof.
  intros Hc Hk. unfold bind. destruct (c w) as [[a| |] w1]; simpl in *; auto.
Qed.

(** A response for a name without a pending entry is forbidden and changes
    nothing. *)
Lemma response_without_entry dumps has_joined cfg server_id req name vt n w :
  Config.OFFLINE cfg = false ->
  form req !! "name" = Some name ->
  form req !! "verifyToken" = Some vt ->
  Py.int_ vt = Some n ->
  validate_tokens w !! name = None ->
  AuthResponseResource_post dumps has_joined cfg server_id req w
  = (Abort 403 "The user has not requested a token or it has expired", w).
Proof.
  intros Hoff Hname Hvt Hint Hentry.
  unfold AuthResponseResource_post, offline_mode, form_getitem. rewrite Hoff, Hname.
  unfold bind at 1, ret at 1. rewrite Hvt. unfold bind at 1, ret at 1.
  rewrite Hint. unfold bind at 1, ret at 1. unfold bind at 1, get at 1.
  by rewrite decide_True.
Qed.

(** The cache after a response that found its entry. *)
Lemma response_deletes_entry dumps has_joined cfg server_id req name vt n entry w :
  Config.OFFLINE cfg = false ->
  form req !! "name" = Some name ->
  form req !! "verifyToken" = Some vt ->
  Py.int_ vt = Some n ->
  validate_tokens w !! name = Some entry ->
  validate_tokens (snd (AuthResponseResource_post dumps has_joined cfg server_id req w))
  = delete name (validate_tokens w).
Proof.
  intros Hoff Hname Hvt Hint Hentry. destruct entry as [token addr].
  rewrite (response_examines_entry _ _ _ _ _ _ _ _ _ _ _ Hoff Hname Hvt Hint Hentry).
  cbv zeta. repeat case_decide; try done.
  destruct (negb _); [done|].
  apply bind_validate_tokens.
  - by rewrite get_or_create_user_validate_tokens.
  - intros user w' Hw'. exact Hw'.
Qed.

(** C7: when the response step finds a pending entry for the submitted name,
    the entry is deleted whatever the token and address comparisons say (the
    rest of the cache stays), and a response call repeated right after for the
    same name finds none and is forbidden. *)
Theorem response_consumes_pending_entry (dumps : option Z -> Z -> string)
    (has_joined : string -> string -> string -> Joined) (cfg : Config.t)
    (server_id : string) (req : Request) (name vt : string) (n : Z)
    (entry : Z * string) (w : World) :
  Config.OFFLINE cfg = false ->
  form req !! "name" = Some name ->
  form req !! "verifyToken" = Some vt ->
  Py.int_ vt = Some n ->
  validate_tokens w !! name = Some entry ->
  validate_tokens (snd (AuthResponseResource_post dumps has_joined cfg server_id req w))
  = delete name (validate_tokens w)
  /\ validate_tokens
       (snd (AuthResponseResource_post dumps has_joined cfg server_id req w)) !! name
     = None
  /\ (fst entry <> n ->
      fst (AuthResponseResource_post dumps has_joined cfg server_id req w)
      = Abort 403 "The verify token is not valid")
  /\ (fst entry = n -> snd entry <> remote_addr req ->
      fst (AuthResponseResource_post dumps has_joined cfg server_id req w)
      = Abort 403 "IP does not match")
  /\ (forall (req' : Request) (vt' : string) (n' : Z),
        form req' !! "name" = Some name ->
        form req' !! "verifyToken" = Some vt' ->
        Py.int_ vt' = Some n' ->
        fst (AuthResponseResource_post dumps has_joined cfg server_id req'
               (teardown_request
                  (snd (AuthResponseResource_post dumps has_joined cfg server_id req w))))
        = Abort 403 "The user has not requested a token or it has expired").
Proof.
  intros Hoff Hname Hvt Hint Hentry.
  pose proof (response_deletes_entry dumps has_joined cfg server_id req name vt n
                entry w Hoff Hname Hvt Hint Hentry) as Hdel.
  split; [exact Hdel|].
  split; [rewrite Hdel; apply lookup_delete_eq|].
  destruct entry as [token addr]. simpl.
  split; [|split].
  - intros Hne.
    rewrite (response_examines_entry _ _ _ _ _ _ _ _ _ _ _ Hoff Hname Hvt Hint Hentry).
    cbv zeta. by rewrite decide_True.
  - intros -> Hne.
    rewrite (response_examines_entry _ _ _ _ _ _ _ _ _ _ _ Hoff Hname Hvt Hint Hentry).
    cbv zeta. rewrite decide_False by (intros H; by apply H). by rewrite decide_True.
  - intros req' vt' n' Hname' Hvt' Hint'.
    rewrite (response_without_entry _ _ _ _ _ name vt' n' _ Hoff Hname' Hvt' Hint');
      [done|].
    simpl. rewrite Hdel. apply lookup_delete_eq.
Qed.

Lemma response_consumes_pending_entry_witness :
  validate_tokens
    (snd (AuthResponseResource_post toy_dumps toy_has_joined cfg0 "srv"
            bob_wrong_token bob_pending)) !! "bob" = None
  /\ fst (AuthResponseResource_post toy_dumps toy_has_joined cfg0 "srv"
            bob_wrong_token bob_pending)
     = Abort 403 "The verify token is not valid"
  /\ fst (AuthResponseResource_post toy_dumps toy_has_joined cfg0 "srv" bob_response
            (teardown_request
               (snd (AuthResponseResource_post toy_dumps toy_has_joined cfg0 "srv"
                       bob_wrong_token bob_pending))))
     = Abort 403 "The user has not requested a token or it has expired".
Proof.
  destruct (response_consumes_pending_entry toy_dumps toy_has_joined cfg0 "srv"
              bob_wrong_token "bob" "1" 1 (4711, "10.0.0.2") bob_pending)
    as (_ & Hgone & Htok & _ & Hagain); try (vm_compute; reflexivity).
  split; [exact Hgone|]. split.
  - apply Htok. vm_compute. discriminate.
  - apply (Hagain bob_response "4711" 4711); vm_compute; reflexivity.
Defined.


(** ** Content hashing and reuse of blobs *)

Lemma hex_digit_lower (n : Z) :
  0 <= n < 16 -> Sha1.is_lower_hex_digit (Sha1.hex_digit n) = true.
Proof.
  intros H. unfold Sha1.hex_digit.
  assert (Hk : (Z.to_nat n < 16)%nat) by lia.
  generalize dependent (Z.to_nat n). intros k Hk.
  do 16 (destruct k as [|k]; [reflexivity|]). lia.
Qed.

Lemma hex_lower (bs : list Z) :
  Forall (fun b => 0 <= b < 256) bs ->
  Sha1.is_lower_hex (Sha1.hex bs) = true /\ String.length (Sha1.hex bs) = (2 * length bs)%nat.
Proof.
  induction 1 as [|b bs Hb _ [IH1 IH2]]; [done|].
  simpl. rewrite IH1, IH2.
  rewrite !hex_digit_lower; [split; [done | lia] | |].
  - apply Z.mod_pos_bound. lia.
  - split; [apply Z.div_pos; lia | apply Z.div_lt_upper_bound; lia].
Qed.

Lemma be32_bytes (x : Z) :
  Forall (fun b => 0 <= b < 256) (Sha1.be32 x) /\ length (Sha1.be32 x) = 4%nat.
Proof.
  unfold Sha1.be32. simpl. split; [|done].
  repeat constructor; apply Z.mod_pos_bound; lia.
Qed.

Lemma digest_bytes (data : list byte) :
  Forall (fun b => 0 <= b < 256) (Sha1.digest data) /\ length (Sha1.digest data) = 20%nat.
Proof.
  unfold Sha1.digest.
  destruct (fold_left _ _ _) as [[[[h0 h1] h2] h3] h4].
  split.
  - repeat (apply Forall_app; split); apply be32_bytes.
  - rewrite !length_app. by rewrite !(proj2 (be32_bytes _)).
Qed.

(** The digest is rendered as forty lowercase hexadecimal digits. *)
Lemma hexdigest_lower_hex (data : list byte) :
  Sha1.is_lower_hex (Sha1.hexdigest data) = true
  /\ String.length (Sha1.hexdigest data) = 40%nat.
Proof.
  unfold Sha1.hexdigest. destruct (digest_bytes data) as [Hb Hl].
  destruct (hex_lower _ Hb) as [H1 H2]. rewrite H2, Hl. done.
Qed.

Lemma first_by_hash_None (h : string) (w : World) :
  Upload_first_by_hash h w = None <-> h ∉ upload_hash <$> uploads w.
Proof.
  unfold Upload_first_by_hash. rewrite head_None. split.
  - intros Hf Hin. apply list_elem_of_fmap in Hin as (u & -> & Hu).
    assert (Hu' : u ∈ filter (fun u' => upload_hash u' = upload_hash u) (uploads w))
      by (apply list_elem_of_filter; done).
    rewrite Hf in Hu'. by apply not_elem_of_nil in Hu'.
  - intros Hin. destruct (filter _ _) as [|u l] eqn:E; [done|].
    assert (Hu : u ∈ filter (fun u' => upload_hash u' = h) (uploads w))
      by (rewrite E; left).
    apply list_elem_of_filter in Hu as [<- Hu]. destruct Hin.
    apply list_elem_of_fmap. by exists u.
Qed.

Lemma first_by_hash_Some (h : string) (w : World) (u : Upload) :
  Upload_first_by_hash h w = Some u -> u ∈ uploads w /\ upload_hash u = h.
Proof.
  unfold Upload_first_by_hash. intros H. apply head_Some_elem_of in H.
  apply list_elem_of_filter in H. tauto.
Qed.

Lemma filter_hash_absent (h : string) (l : list Upload) :
  h ∉ upload_hash <$> l -> filter (fun u => upload_hash u = h) l = [].
Proof.
  induction l as [|u l IH]; [done|]. rewrite fmap_cons, not_elem_of_cons.
  intros [Hne Hl]. rewrite filter_cons_False by congruence. auto.
Qed.

(** With one row for each hash, a hash that occurs has exactly one row. *)
Lemma one_row_for_hash (h : string) (l : list Upload) :
  NoDup (upload_hash <$> l) -> h ∈ upload_hash <$> l ->
  length (filter (fun u => upload_hash u = h) l) = 1%nat.
Proof.
  induction l as [|u l IH]; intros Hnd Hin.
  - by apply elem_of_nil in Hin.
  - rewrite fmap_cons in Hnd, Hin. apply NoDup_cons in Hnd as [Hu Hnd].
    destruct (decide (upload_hash u = h)) as [<-|Hne].
    + rewrite filter_cons_True by done. simpl. by rewrite filter_hash_absent.
    + rewrite filter_cons_False by done. apply IH; [done|].
      apply elem_of_cons in Hin as [?|?]; [congruence | done].
Qed.

(** One upload request, start to end. *)
Lemma put_texture_request Image_open user file skin_type metadata w :
  session w = [] ->
  session (teardown_request (snd (put_texture Image_open user file skin_type metadata w)))
  = []
  /\ match gen_skin_hash Image_open file with
     | Return h =>
         if decide (h ∈ upload_hash <$> uploads w)
         then uploads (teardown_request
                         (snd (put_texture Image_open user file skin_type metadata w)))
              = uploads w
              /\ fs (teardown_request
                       (snd (put_texture Image_open user file skin_type metadata w)))
                 = fs w
         else uploads (teardown_request
                         (snd (put_texture Image_open user file skin_type metadata w)))
              = (uploads w ++ [{| upload_hash := h; upload_user := user |}])%list
              /\ fs (teardown_request
                       (snd (put_texture Image_open user file skin_type metadata w)))
                 = <[h := file]> (fs w)
     | _ => uploads (teardown_request
                       (snd (put_texture Image_open user file skin_type metadata w)))
            = uploads w
            /\ fs (teardown_request
                     (snd (put_texture Image_open user file skin_type metadata w)))
               = fs w
     end.
Proof.
  intros Hs. split; [done|].
  destruct (gen_skin_hash Image_open file) as [h| |] eqn:Eh.
  - destruct (Upload_first_by_hash h w) as [u|] eqn:Eq.
    + rewrite (put_texture_existing _ _ _ _ _ _ _ _ Hs Eh Eq). simpl.
      rewrite decide_True; [done|].
      apply first_by_hash_Some in Eq as [Hu <-]. apply list_elem_of_fmap. by exists u.
    + rewrite (put_texture_new _ _ _ _ _ _ _ Hs Eh Eq). simpl.
      rewrite decide_False; [done|]. by apply first_by_hash_None.
  - unfold put_texture. run_M. by rewrite Eh.
  - unfold put_texture. run_M. by rewrite Eh.
Qed.

Lemma put_texture_request_consistent Image_open user file skin_type metadata w :
  blobs_consistent w ->
  blobs_consistent
    (teardown_request (snd (put_texture Image_open user file skin_type metadata w))).
Proof.
  intros (Hs & Hnd & Hfs).
  destruct (put_texture_request Image_open user file skin_type metadata w Hs)
    as [Hs' Hstep].
  split; [exact Hs'|].
  destruct (gen_skin_hash Image_open file) as [h| |];
    [destruct (decide (h ∈ upload_hash <$> uploads w)) as [Hin|Hin]|..];
    destruct Hstep as [-> ->]; try done.
  split.
  - rewrite fmap_app. apply NoDup_app. split; [done|]. split.
    + intros x Hx Hx'. simpl in Hx'. apply list_elem_of_singleton in Hx'. by subst.
    + simpl. apply NoDup_singleton.
  - intros u Hu. apply elem_of_app in Hu as [Hu|Hu].
    + destruct (decide (h = upload_hash u)) as [->|Hne].
      * rewrite lookup_insert_eq. by eexists.
      * rewrite lookup_insert_ne by done. by apply Hfs.
    + apply list_elem_of_singleton in Hu as ->. simpl. rewrite lookup_insert_eq. by eexists.
Qed.

Lemma put_textures_consistent Image_open calls w :
  blobs_consistent w -> blobs_consistent (put_textures Image_open calls w).
Proof.
  revert w. induction calls as [|[[[user file] skin_type] metadata] calls IH];
    intros w Hw; simpl; [done|].
  apply IH. by apply put_texture_request_consistent.
Qed.

(** Once a blob row for [h] exists, uploads of content hashing to [h] add no
    blob row and write nothing. *)
Lemma put_textures_reuse Image_open calls h w :
  session w = [] ->
  h ∈ upload_hash <$> uploads w ->
  Forall (fun call => gen_skin_hash Image_open (snd (fst (fst call))) = Return h) calls ->
  uploads (put_textures Image_open calls w) = uploads w
  /\ fs (put_textures Image_open calls w) = fs w.
Proof.
  intros Hs Hin Hall. revert w Hs Hin.
  induction Hall as [|[[[user file] skin_type] metadata] calls Hh _ IH];
    intros w Hs Hin; simpl; [done|].
  simpl in Hh.
  destruct (put_texture_request Image_open user file skin_type metadata w Hs)
    as [Hs' Hstep].
  rewrite Hh, decide_True in Hstep by done. destruct Hstep as [Hu Hf].
  destruct (IH _ Hs') as [-> ->]; [by rewrite Hu|]. done.
Qed.

(** C5: the content hash is the lowercase hexadecimal SHA-1 digest of the
    decoded pixel buffer, not of the file; so uploads that decode to the same
    pixels get the same hash, there is at most one blob row for a hash, and
    however often content with one hash is uploaded, there is exactly one
    blob row and one stored object for it. *)
Theorem content_hash_dedup (Image_open : list byte -> option Image) :
  (forall file h,
     gen_skin_hash Image_open file = Return h ->
     exists image, Image_open file = Some image
       /\ h = Sha1.hexdigest (tobytes image)
       /\ Sha1.is_lower_hex h = true /\ String.length h = 40%nat)
  /\ (forall file1 file2 image1 image2 h1 h2,
        Image_open file1 = Some image1 -> Image_open file2 = Some image2 ->
        tobytes image1 = tobytes image2 ->
        gen_skin_hash Image_open file1 = Return h1 ->
        gen_skin_hash Image_open file2 = Return h2 ->
        h1 = h2)
  /\ (forall calls w,
        blobs_consistent w ->
        NoDup (upload_hash <$> uploads (put_textures Image_open calls w)))
  /\ (forall calls w h,
        blobs_consistent w ->
        calls <> [] ->
        Forall (fun call => gen_skin_hash Image_open (snd (fst (fst call))) = Return h)
               calls ->
        length (filter (fun u => upload_hash u = h)
                       (uploads (put_textures Image_open calls w))) = 1%nat
        /\ is_Some (fs (put_textures Image_open calls w) !! h)
        /\ dom (fs (put_textures Image_open calls w)) = {[h]} ∪ dom (fs w)).
Proof.
  split; [|split; [|split]].
  - intros file h Hh. apply gen_skin_hash_Return in Hh as (image & Ho & _ & _ & _ & ->).
    exists image. destruct (hexdigest_lower_hex (tobytes image)). done.
  - intros file1 file2 image1 image2 h1 h2 Ho1 Ho2 Hpix Hh1 Hh2.
    apply gen_skin_hash_Return in Hh1 as (i1 & Ho1' & _ & _ & _ & ->).
    apply gen_skin_hash_Return in Hh2 as (i2 & Ho2' & _ & _ & _ & ->).
    congruence.
  - intros calls w Hw. by apply (put_textures_consistent Image_open calls) in Hw as (_ & ? & _).
  - intros calls w h Hw Hne Hall.
    destruct calls as [|[[[user file] skin_type] metadata] calls]; [done|].
    apply Forall_cons in Hall as [Hh Hall]. simpl in Hh. simpl.
    pose proof (put_texture_request_consistent Image_open user file skin_type metadata
                  w Hw) as (Hs1 & Hnd1 & Hfs1).
    destruct Hw as (Hs & Hnd & Hfs).
    destruct (put_texture_request Image_open user file skin_type metadata w Hs)
      as [_ Hstep].
    rewrite Hh in Hstep.
    set (w1 := teardown_request
                 (snd (put_texture Image_open user file skin_type metadata w))) in *.
    assert (Hin1 : h ∈ upload_hash <$> uploads w1).
    { destruct (decide (h ∈ upload_hash <$> uploads w)) as [Hin|Hin];
        destruct Hstep as [-> _]; [done|].
      rewrite fmap_app. apply elem_of_app. right. simpl. left. }
    destruct (put_textures_reuse Image_open calls h w1 Hs1 Hin1 Hall) as [-> ->].
    split; [by apply one_row_for_hash|].
    apply list_elem_of_fmap in Hin1 as (u & -> & Hu).
    split; [by apply Hfs1|].
    destruct (decide (upload_hash u ∈ upload_hash <$> uploads w)) as [Hin|Hin];
      destruct Hstep as [Hup ->].
    + apply list_elem_of_fmap in Hin as (u' & Heq & Hu').
      apply Hfs in Hu'. rewrite <- Heq in Hu'. apply elem_of_dom in Hu'.
      symmetry. apply subseteq_union_1_L. by apply singleton_subseteq_l.
    + by rewrite dom_insert_L.
Qed.

(** Two encodings of the same pixels, uploaded three times in all: one blob
    row, one stored object, the bytes of the first upload. *)
Lemma content_hash_dedup_witness :
  gen_skin_hash toy_open png64 = gen_skin_hash toy_open png64_reencoded
  /\ png64 <> png64_reencoded
  /\ length
       (filter (fun u => upload_hash u = "0ca623e2855f2c75c842ad302fe820e41b4d197d")
          (uploads
             (put_textures toy_open
                [(alice, png64, "skin", ∅); (alice, png64_reencoded, "skin", ∅);
                 (alice, png64, "hat", ∅)] world0))) = 1%nat
  /\ dom (fs (put_textures toy_open
                [(alice, png64, "skin", ∅); (alice, png64_reencoded, "skin", ∅);
                 (alice, png64, "hat", ∅)] world0))
     = {[ "0ca623e2855f2c75c842ad302fe820e41b4d197d" ]} ∪ dom (fs world0).
Proof.
  split; [vm_compute; reflexivity|]. split; [discriminate|].
  destruct (content_hash_dedup toy_open) as (_ & _ & _ & H).
  destruct (H [(alice, png64, "skin", ∅); (alice, png64_reencoded, "skin", ∅);
               (alice, png64, "hat", ∅)] world0
              "0ca623e2855f2c75c842ad302fe820e41b4d197d") as (Hc & _ & Hd).
  - split; [reflexivity|]. split; [constructor|]. intros u Hu.
    by apply elem_of_nil in Hu.
  - discriminate.
  - repeat constructor.
  - split; [exact Hc | exact Hd].
Defined.

(** The stored object is the file of the first upload. *)
Example stored_object_is_first_upload :
  fs (put_textures toy_open
        [(alice, png64, "skin", ∅); (alice, png64_reencoded, "skin", ∅)] world0)
  !! "0ca623e2855f2c75c842ad302fe820e41b4d197d" = Some png64.
Proof. vm_compute. reflexivity. Qed.

(** ** The active textures of a player *)

#[global] Instance tex_le_trans : Transitive tex_le.
Proof. intros a b c. unfold tex_le. lia. Qed.

#[global] Instance tex_le_total : Total tex_le.
Proof. intros a b. unfold tex_le. lia. Qed.

(** [distinct] keeps a row exactly when it is the first of its type. *)
Lemma distinct_from_spec (seen : list string) (q : list Texture) (r : Texture) :
  r ∈ distinct_from seen q <->
  (tex_type r ∉ seen) /\ head (filter (fun r' => tex_type r' = tex_type r) q) = Some r.
Proof.
  revert seen. induction q as [|x q IH]; intros seen; simpl.
  - split; [by intros ?%elem_of_nil | by intros [_ ?]].
  - destruct (decide (tex_type x ∈ seen)) as [Hx|Hx].
    + rewrite IH. split; intros [Hr Hh]; (split; [done|]).
      * rewrite filter_cons_False; [done|]. intros E. by rewrite E in Hx.
      * rewrite filter_cons_False in Hh; [done|]. intros E. by rewrite E in Hx.
    + rewrite elem_of_cons, IH. split.
      * intros [->|[Hr Hh]].
        -- split; [done|]. by rewrite filter_cons_True.
        -- apply not_elem_of_cons in Hr as [Hne Hr]. split; [done|].
           by rewrite filter_cons_False by congruence.
      * intros [Hr Hh].
        destruct (decide (tex_type x = tex_type r)) as [E|E].
        -- rewrite filter_cons_True in Hh by done. left. simpl in Hh. congruence.
        -- rewrite filter_cons_False in Hh by done. right.
           split; [|done]. apply not_elem_of_cons. split; [congruence | done].
Qed.



(** The rows the query orders: the player's, highest identifier first. *)
Lemma ordered_rows_spec (user : User) (w : World) :
  StronglySorted (flip tex_le) (reverse (order_by_id (filter_by_user user (textures w))))
  /\ forall r, r ∈ reverse (order_by_id (filter_by_user user (textures w)))
               <-> r ∈ textures w /\ user_id (tex_user r) = user_id user.
Proof.
  split.
  - apply Sorted_StronglySorted; [apply _|].
    apply Sorted_reverse, Sorted_merge_sort; apply _.
  - intros r. rewrite elem_of_reverse. unfold order_by_id.
    rewrite merge_sort_Permutation. unfold filter_by_user.
    rewrite list_elem_of_filter. tauto.
Qed.




(** ** The profile document *)




Lemma dict_nil {V} : Py.dict (@nil (string * V)) = ∅.
Proof. reflexivity. Qed.











(** * Further properties of the handlers *)

(** ** Required form fields *)

(** X1: [require_formdata] runs the handler when every listed field is in the
    form, and otherwise aborts with 404 naming the first listed field that is
    missing, without running the handler. *)
Theorem require_formdata_first_missing {A : Type} (formdata : list string)
    (req : Request) (func : M A) (w : World) :
  (Forall (fun d => is_Some (form req !! d)) formdata ->
   require_formdata formdata req func w = func w)
  /\ (forall before d after,
        formdata = (before ++ d :: after)%list ->
        Forall (fun d' => is_Some (form req !! d')) before ->
        form req !! d = None ->
        require_formdata formdata req func w
        = (Abort 404 ("Missing required form: '" ++ d ++ "'"), w)).
Proof.
  split.
  - induction 1 as [|d rest [v Hd] _ IH]; simpl; [done|].
    rewrite decide_False by (rewrite Hd; discriminate). exact IH.
  - intros before d after -> Hall Hd.
    induction Hall as [|d' rest [v Hd'] _ IH]; simpl.
    + by rewrite decide_True.
    + rewrite decide_False by (rewrite Hd'; discriminate). exact IH.
Qed.

(** ** Outcomes of validation *)


(** ** Who gets past authentication *)

Lemma User_get_elem (id : option Z) (w : World) (u : User) :
  User_get id w = Some u -> u ∈ users w /\ user_id u = id /\ is_Some id.
Proof.
  destruct id as [i|]; [|done]. simpl. intros H%head_Some_elem_of.
  apply list_elem_of_filter in H as [? ?]. by eauto.
Qed.

Lemma User_get_unique (i : Z) (w : World) (u : User) :
  u ∈ users w -> user_id u = Some i ->
  (forall u', u' ∈ users w -> user_id u' = Some i -> u' = u) ->
  User_get (Some i) w = Some u.
Proof.
  intros Hu Hi Huniq. simpl.
  assert (Hin : u ∈ filter (fun u' => user_id u' = Some i) (users w))
    by (by apply list_elem_of_filter).
  destruct (filter _ (users w)) as [|x l] eqn:E; [by apply elem_of_nil in Hin|].
  simpl. f_equal.
  assert (Hx : x ∈ filter (fun u' => user_id u' = Some i) (users w))
    by (rewrite E; left).
  apply list_elem_of_filter in Hx as [? ?]. by apply Huniq.
Qed.

(** X3: whatever the token, [login_required] either runs the handler with
    [g.user] set to a stored player whose identifier is the token's payload,
    or answers 401 without running it and without touching tables, session,
    storage or cache. *)
Theorem login_required_guards {A : Type} (loads : string -> Loaded) (req : Request)
    (f : M A) (w : World) :
  (exists u i,
     loads (default "" (authorization req)) = Payload (Some i)
     /\ u ∈ users w /\ user_id u = Some i
     /\ login_required loads req f w = f (set_g_user (Some u) w))
  \/ (exists message w',
        login_required loads req f w = (Abort 401 message, w')
        /\ (w' = w \/ w' = set_g_user None w)).
Proof.
  unfold login_required, verify_auth_token. unfold bind at 1.
  destruct (loads _) as [id| |] eqn:El.
  - run_M. destruct (User_get id w) as [u|] eqn:Eu.
    + left. apply User_get_elem in Eu as (Hu & Hid & [i ->]).
      exists u, i. done.
    + right. eexists _, _. split; [reflexivity|]. by right.
  - right. eexists _, _. split; [reflexivity|]. by left.
  - right. eexists _, _. split; [reflexivity|]. by left.
Qed.

(** X4: a token issued by [gen_auth_token] for a stored player, read back by
    the serializer, makes [verify_auth_token] return that player and set
    [g.user] to it, so that [login_required] runs the handler. *)
Theorem issued_token_authenticates {A : Type} (loads : string -> Loaded)
    (dumps : option Z -> Z -> string) (u : User) (i expiration : Z) (req : Request)
    (f : M A) (w : World) :
  u ∈ users w ->
  user_id u = Some i ->
  (forall u', u' ∈ users w -> user_id u' = Some i -> u' = u) ->
  loads (gen_auth_token dumps u expiration) = Payload (Some i) ->
  authorization req = Some (gen_auth_token dumps u expiration) ->
  verify_auth_token loads (gen_auth_token dumps u expiration) w
  = (Return (Some u), set_g_user (Some u) w)
  /\ login_required loads req f w = f (set_g_user (Some u) w).
Proof.
  intros Hu Hi Huniq Hl Hreq.
  pose proof (User_get_unique i w u Hu Hi Huniq) as Hget.
  split.
  - by apply verify_auth_token_known with (Some i).
  - by apply login_required_known with (gen_auth_token dumps u expiration) (Some i).
Qed.

Lemma issued_token_authenticates_witness :
  verify_auth_token toy_loads (gen_auth_token toy_dumps alice 3600) world0
  = (Return (Some alice), set_g_user (Some alice) world0).
Proof.
  refine (proj1 (issued_token_authenticates (A := unit) toy_loads toy_dumps alice 1 3600
                   {| form := ∅; files := ∅; remote_addr := "10.0.0.1";
                      authorization := Some (gen_auth_token toy_dumps alice 3600) |}
                   (ret tt) world0 _ eq_refl _ eq_refl eq_refl)).
  - simpl. left.
  - intros u' Hu' _. simpl in Hu'. by apply list_elem_of_singleton in Hu'.
Defined.

(** ** The order of the checks before a texture handler *)

(** X5: for a request with a valid token of a stored player, the texture
    resource first refuses a blacklisted type with 400 (whoever the path
    names), then refuses a path that names anyone else with 403, and only then
    runs the verb handler, whose effects and failures are those of the
    request while its result is dropped; the type [cape] is refused under
    every environment. *)
Theorem dispatch_request_order (Image_open : list byte -> option Image)
    (loads : string -> Loaded) (requests_get : string -> HttpResponse) (cfg : Config.t)
    (method : Method) (req : Request) (user : option User) (skin_type token : string)
    (id : option Z) (u : User) (w : World) :
  authorization req = Some token ->
  loads token = Payload id ->
  User_get id w = Some u ->
  (skin_type ∈ blacklist cfg ->
   dispatch_request Image_open loads requests_get cfg method req user skin_type w
   = (Abort 400 ("Type '" ++ skin_type ++ "' is not allowed. "), set_g_user (Some u) w))
  /\ (skin_type ∉ blacklist cfg -> user <> Some u ->
      dispatch_request Image_open loads requests_get cfg method req user skin_type w
      = (Abort 403 "Cannot change another user's textures", set_g_user (Some u) w))
  /\ (skin_type ∉ blacklist cfg -> user = Some u ->
      snd (dispatch_request Image_open loads requests_get cfg method req user skin_type w)
      = snd (Resource_dispatch_request Image_open requests_get method req u skin_type
               (set_g_user (Some u) w))
      /\ fst (dispatch_request Image_open loads requests_get cfg method req user
                skin_type w)
         = match fst (Resource_dispatch_request Image_open requests_get method req u
                        skin_type (set_g_user (Some u) w)) with
           | Return _ => Return None
           | Abort code message => Abort code message
           | Raise exc => Raise exc
           end)
  /\ (forall environ, cfg = Config.load environ -> skin_type = "cape" ->
      fst (dispatch_request Image_open loads requests_get cfg method req user skin_type w)
      = Abort 400 "Type 'cape' is not allowed. ").
Proof.
  intros Hreq Hl Hu.
  assert (Hblack : skin_type ∈ blacklist cfg ->
    dispatch_request Image_open loads requests_get cfg method req user skin_type w
    = (Abort 400 ("Type '" ++ skin_type ++ "' is not allowed. "),
       set_g_user (Some u) w)).
  { intros Hb. unfold dispatch_request.
    rewrite (login_required_known _ _ _ _ _ _ _ Hreq Hl Hu). by rewrite decide_True. }
  split; [exact Hblack|]. split; [|split].
  - intros Hb Hne. unfold dispatch_request.
    rewrite (login_required_known _ _ _ _ _ _ _ Hreq Hl Hu).
    rewrite decide_False by done. unfold bind at 1, get at 1. simpl g_user.
    by rewrite decide_True.
  - intros Hb ->.
    assert (E : dispatch_request Image_open loads requests_get cfg method req (Some u)
                  skin_type w
                = (Resource_dispatch_request Image_open requests_get method req u
                     skin_type ;;; ret None) (set_g_user (Some u) w)).
    { unfold dispatch_request.
      rewrite (login_required_known _ _ _ _ _ _ _ Hreq Hl Hu).
      rewrite decide_False by done. unfold bind at 1, get at 1. simpl g_user.
      by rewrite decide_False by (intros H; by apply H). }
    rewrite E. run_M.
    by destruct (Resource_dispatch_request _ _ _ _ _ _ _) as [[r| |] w1].
  - intros environ -> ->. rewrite Hblack; [done|]. simpl. left.
Qed.

Lemma dispatch_request_order_witness :
  dispatch_request toy_open toy_loads toy_get cfg0 DELETE bare_request None "cape" world0
  = (Abort 400 "Type 'cape' is not allowed. ", set_g_user (Some alice) world0)
  /\ dispatch_request toy_open toy_loads toy_get cfg0 DELETE bare_request None "skin"
       world0
     = (Abort 403 "Cannot change another user's textures",
        set_g_user (Some alice) world0)
  /\ fst (dispatch_request toy_open toy_loads toy_get cfg0 DELETE bare_request
            (Some alice) "skin" world0) = Return None.
Proof.
  split; [|split].
  - apply (dispatch_request_order toy_open toy_loads toy_get cfg0 DELETE bare_request
             None "cape" "tok1" (Some 1) alice world0 eq_refl eq_refl eq_refl).
    simpl. left.
  - apply (dispatch_request_order toy_open toy_loads toy_get cfg0 DELETE bare_request
             None "skin" "tok1" (Some 1) alice world0 eq_refl eq_refl eq_refl).
    + vm_compute. intros H. by apply list_elem_of_singleton in H.
    + discriminate.
  - destruct (dispatch_request_order toy_open toy_loads toy_get cfg0 DELETE bare_request
                (Some alice) "skin" "tok1" (Some 1) alice world0 eq_refl eq_refl eq_refl)
      as (_ & _ & Hrun & _).
    destruct Hrun as [_ ->]; [|reflexivity|reflexivity].
    vm_compute. intros H. by apply list_elem_of_singleton in H.
Defined.

(** ** What the upload handlers need, and what they pass on *)

(** [dict] of the items of a dictionary is that dictionary. *)
Lemma dict_map_to_list {V} (m : gmap string V) : Py.dict (map_to_list m) = m.
Proof.
  unfold Py.dict. rewrite <- (list_to_map_to_list m) at 2.
  apply list_to_map_proper.
  - rewrite fmap_reverse, reverse_Permutation. apply NoDup_fst_map_to_list.
  - apply reverse_Permutation.
Qed.

Lemma call_put_texture_form Image_open user data skin_type (f : gmap string string) :
  call_put_texture Image_open user data skin_type (get_metadata_map f)
  = if decide (is_Some (f !! "user") \/ is_Some (f !! "file") \/ is_Some (f !! "skin_type"))
    then raise "TypeError"
    else put_texture Image_open user data skin_type f.
Proof. unfold call_put_texture, get_metadata_map. by rewrite dict_map_to_list. Qed.

Lemma put_texture_Return_iff Image_open user file skin_type metadata w :
  fst (put_texture Image_open user file skin_type metadata w) = Return tt
  <-> exists h, gen_skin_hash Image_open file = Return h.
Proof.
  split.
  - destruct (gen_skin_hash Image_open file) as [h| |] eqn:E; [by eauto| |];
      unfold put_texture; run_M; by rewrite E.
  - intros [h Hh]. by apply put_texture_returns with h.
Qed.

Lemma put_texture_fails_unchanged Image_open user file skin_type metadata w :
  fst (put_texture Image_open user file skin_type metadata w) <> Return tt ->
  snd (put_texture Image_open user file skin_type metadata w) = w.
Proof.
  intros Hf. apply put_texture_rejected. intros h Hh. apply Hf.
  by apply put_texture_returns with h.
Qed.

Lemma bind_ret_fst {A B} (c : M A) (b : B) (w : World) :
  fst ((c ;;; ret b) w)
  = match fst (c w) with
    | Return _ => Return b
    | Abort code message => Abort code message
    | Raise exc => Raise exc
    end
  /\ snd ((c ;;; ret b) w) = snd (c w).
Proof. run_M. by destruct (c w) as [[a| |] w1]. Qed.

(** The two upload handlers, past their own checks. *)
Lemma put_unfold Image_open req user skin_type w file :
  files req !! "file" = Some file ->
  filename file <> "" ->
  form req !! "user" = None -> form req !! "file" = None ->
  form req !! "skin_type" = None ->
  TextureResource_put Image_open req user skin_type w
  = (put_texture Image_open user (stream file) skin_type (form req) ;;;
     ret {| body := ""; status := 202 |}) w.
Proof.
  intros Hf Hn Hu Hfl Hs. unfold TextureResource_put. rewrite Hf.
  apply String.eqb_neq in Hn. rewrite Hn. cbv zeta.
  rewrite call_put_texture_form. by rewrite decide_False by (by apply no_shadowing).
Qed.

Lemma post_unfold Image_open requests_get req user skin_type w url :
  form req !! "file" = Some url ->
  ok (requests_get url) = true ->
  form req !! "user" = None -> form req !! "skin_type" = None ->
  TextureResource_post Image_open requests_get req user skin_type w
  = (put_texture Image_open user (content (requests_get url)) skin_type
       (delete "file" (form req)) ;;;
     ret {| body := ""; status := 202 |}) w.
Proof.
  intros Hf Hok Hu Hs. unfold TextureResource_post.
  rewrite require_formdata_file, Hf. cbv zeta. rewrite Hok. cbn [negb].
  rewrite call_put_texture_form.
  rewrite decide_False; [done|]. apply no_shadowing.
  - by rewrite lookup_delete_ne.
  - by rewrite lookup_delete_eq.
  - by rewrite lookup_delete_ne.
Qed.

Lemma put_Return_inv Image_open req user skin_type w r :
  fst (TextureResource_put Image_open req user skin_type w) = Return r ->
  exists file h,
    files req !! "file" = Some file /\ filename file <> ""
    /\ form req !! "user" = None /\ form req !! "file" = None
    /\ form req !! "skin_type" = None
    /\ gen_skin_hash Image_open (stream file) = Return h.
Proof.
  intros Hr. unfold TextureResource_put in Hr.
  destruct (files req !! "file") as [file|]; [|done].
  destruct (String.eqb (filename file) "") eqn:En; [done|].
  apply String.eqb_neq in En. cbv zeta in Hr. rewrite call_put_texture_form in Hr.
  case_decide as Hshadow; [done|].
  destruct (bind_ret_fst
              (put_texture Image_open user (stream file) skin_type (form req))
              {| body := ""; status := 202 |} w) as [E _].
  rewrite E in Hr.
  destruct (fst (put_texture _ _ _ _ _ w)) as [[]| |] eqn:Ep; try done.
  apply put_texture_Return_iff in Ep as [h Hh].
  exists file, h. repeat split; try done;
    apply eq_None_not_Some; intros Hsome; apply Hshadow; tauto.
Qed.

Lemma post_Return_inv Image_open requests_get req user skin_type w r :
  fst (TextureResource_post Image_open requests_get req user skin_type w) = Return r ->
  exists url h,
    form req !! "file" = Some url /\ ok (requests_get url) = true
    /\ form req !! "user" = None /\ form req !! "skin_type" = None
    /\ gen_skin_hash Image_open (content (requests_get url)) = Return h.
Proof.
  intros Hr. unfold TextureResource_post in Hr.
  rewrite require_formdata_file in Hr.
  destruct (form req !! "file") as [url|] eqn:Ef; [|done].
  cbv zeta in Hr. destruct (ok (requests_get url)) eqn:Eok; [|done].
  cbn [negb] in Hr. rewrite call_put_texture_form in Hr.
  case_decide as Hshadow; [done|].
  destruct (bind_ret_fst
              (put_texture Image_open user (content (requests_get url)) skin_type
                 (delete "file" (form req)))
              {| body := ""; status := 202 |} w) as [E _].
  rewrite E in Hr.
  destruct (fst (put_texture _ _ _ _ _ w)) as [[]| |] eqn:Ep; try done.
  apply put_texture_Return_iff in Ep as [h Hh].
  exists url, h. repeat split; try done.
  - apply eq_None_not_Some. intros Hsome. apply Hshadow. left.
    by rewrite lookup_delete_ne.
  - apply eq_None_not_Some. intros Hsome. apply Hshadow. do 2 right.
    by rewrite lookup_delete_ne.
Qed.


(** X7: a verb handler of the texture resource that does not return has
    changed nothing: no table, no pending object, no commit, no stored
    object, no cache entry. *)
Theorem failed_handler_changes_nothing (Image_open : list byte -> option Image)
    (requests_get : string -> HttpResponse) (method : Method) (req : Request)
    (user : User) (skin_type : string) (w : World) :
  (forall r,
     fst (Resource_dispatch_request Image_open requests_get method req user skin_type w)
     <> Return r) ->
  snd (Resource_dispatch_request Image_open requests_get method req user skin_type w) = w.
Proof.
  destruct method; simpl; intros Hfail.
  - unfold TextureResource_post in *. rewrite require_formdata_file in *.
    destruct (form req !! "file") as [url|]; [|done].
    cbv zeta in *. destruct (ok (requests_get url)); [|done]. cbn [negb] in *.
    rewrite call_put_texture_form in *. case_decide; [done|].
    destruct (bind_ret_fst
                (put_texture Image_open user (content (requests_get url)) skin_type
                   (delete "file" (form req)))
                {| body := ""; status := 202 |} w) as [E1 E2].
    rewrite E2. apply put_texture_fails_unchanged. intros Hp.
    apply (Hfail {| body := ""; status := 202 |}). by rewrite E1, Hp.
  - unfold TextureResource_put in *.
    destruct (files req !! "file") as [file|]; [|done].
    destruct (String.eqb (filename file) ""); [done|].
    cbv zeta in *. rewrite call_put_texture_form in *. case_decide; [done|].
    destruct (bind_ret_fst
                (put_texture Image_open user (stream file) skin_type (form req))
                {| body := ""; status := 202 |} w) as [E1 E2].
    rewrite E2. apply put_texture_fails_unchanged. intros Hp.
    apply (Hfail {| body := ""; status := 202 |}). by rewrite E1, Hp.
  - by destruct (Hfail {| body := "{}"; status := 202 |}).
Qed.

Lemma failed_handler_changes_nothing_witness :
  snd (Resource_dispatch_request toy_open toy_get PUT
         {| form := ∅;
            files := {[ "file" := {| filename := "big.png"; stream := png100 |} ]};
            remote_addr := "10.0.0.1"; authorization := Some "tok1" |}
         alice "skin" world0) = world0.
Proof.
  apply (failed_handler_changes_nothing toy_open toy_get PUT).
  intros r. vm_compute. discriminate.
Defined.

(** ** What a texture write leaves behind *)

(** The world after an accepted upload: the new row's blob reference is what
    the lookup by hash found before the upload. *)
Lemma put_texture_world Image_open user file skin_type metadata w h :
  session w = [] ->
  gen_skin_hash Image_open file = Return h ->
  put_texture Image_open user file skin_type metadata w =
  (Return tt,
   {| users := users w;
      uploads := match Upload_first_by_hash h w with
                 | None => uploads w ++ [{| upload_hash := h; upload_user := user |}]
                 | Some _ => uploads w
                 end;
      textures := textures w ++
        [{| tex_id := next_id (tex_id <$> textures w); tex_user := user;
            tex_type := skin_type; tex_upload := Upload_first_by_hash h w;
            tex_meta := metadata_rows metadata |}];
      session := []; commits := S (commits w);
      fs := match Upload_first_by_hash h w with
            | None => <[h := file]> (fs w)
            | Some _ => fs w
            end;
      validate_tokens := validate_tokens w; g_user := g_user w |}).
Proof.
  intros Hs Hh. destruct (Upload_first_by_hash h w) as [u|] eqn:Eq.
  - exact (put_texture_existing _ _ _ _ _ _ _ _ Hs Hh Eq).
  - exact (put_texture_new _ _ _ _ _ _ _ Hs Hh Eq).
Qed.

Lemma delete_world req user skin_type w :
  session w = [] ->
  TextureResource_delete req user skin_type w =
  (Return {| body := "{}"; status := 202 |},
   {| users := users w; uploads := uploads w;
      textures := textures w ++
        [{| tex_id := next_id (tex_id <$> textures w); tex_user := user;
            tex_type := skin_type; tex_upload := None; tex_meta := [] |}];
      session := []; commits := S (commits w); fs := fs w;
      validate_tokens := validate_tokens w; g_user := g_user w |}).
Proof.
  intros Hs. unfold TextureResource_delete, db_session_add, session_commit. run_M.
  destruct w; simpl in *; subst. reflexivity.
Qed.

Lemma append_fresh_row_ids (rows : list Texture) (row : Texture) :
  tex_id row = next_id (tex_id <$> rows) ->
  (forall r', r' ∈ rows -> tex_id r' < tex_id row)
  /\ (NoDup (tex_id <$> rows) -> NoDup (tex_id <$> (rows ++ [row])%list)).
Proof.
  intros Hid.
  assert (Habove : forall r', r' ∈ rows -> tex_id r' < tex_id row).
  { intros r' Hr'. rewrite Hid. apply next_id_above. apply list_elem_of_fmap. by exists r'. }
  split; [exact Habove|]. intros Hnd.
  rewrite fmap_app. apply NoDup_app. split; [done|]. split; [|apply NoDup_singleton].
  intros i Hi Hi'. simpl in Hi'. apply list_elem_of_singleton in Hi'. subst i.
  apply list_elem_of_fmap in Hi as (r' & E & Hr'). apply Habove in Hr'. lia.
Qed.

(** What every returning verb handler did, in a request that started with
    an empty session. *)
Lemma handler_Return_world Image_open requests_get method req user skin_type w r :
  session w = [] ->
  fst (Resource_dispatch_request Image_open requests_get method req user skin_type w)
  = Return r ->
  exists upload meta,
    snd (Resource_dispatch_request Image_open requests_get method req user skin_type w)
    = {| users := users w;
         uploads := uploads (snd (Resource_dispatch_request Image_open requests_get
                                    method req user skin_type w));
         textures := textures w ++
           [{| tex_id := next_id (tex_id <$> textures w); tex_user := user;
               tex_type := skin_type; tex_upload := upload; tex_meta := meta |}];
         session := []; commits := S (commits w);
         fs := fs (snd (Resource_dispatch_request Image_open requests_get
                          method req user skin_type w));
         validate_tokens := validate_tokens w; g_user := g_user w |}
    /\ (method = DELETE -> upload = None /\ meta = []).
Proof.
  intros Hs Hr. destruct method; unfold Resource_dispatch_request in *.
  - destruct (post_Return_inv _ _ _ _ _ _ _ Hr) as (url & h & Hf & Hok & Hu & Hst & Hh).
    rewrite (post_unfold _ _ _ _ _ _ _ Hf Hok Hu Hst).
    destruct (bind_ret_fst
                (put_texture Image_open user (content (requests_get url)) skin_type
                   (delete "file" (form req)))
                {| body := ""; status := 202 |} w) as [_ ->].
    rewrite (put_texture_world _ _ _ _ _ _ _ Hs Hh). simpl.
    eexists _, _. split; [reflexivity | done].
  - destruct (put_Return_inv _ _ _ _ _ _ Hr) as (file & h & Hf & Hn & Hu & Hfl & Hst & Hh).
    rewrite (put_unfold _ _ _ _ _ _ Hf Hn Hu Hfl Hst).
    destruct (bind_ret_fst
                (put_texture Image_open user (stream file) skin_type (form req))
                {| body := ""; status := 202 |} w) as [_ ->].
    rewrite (put_texture_world _ _ _ _ _ _ _ Hs Hh). simpl.
    eexists _, _. split; [reflexivity | done].
  - rewrite (delete_world _ _ _ _ Hs). simpl.
    eexists _, _. split; [reflexivity | done].
Qed.

(** X8: every returning verb handler of the texture resource, in a request
    that started with an empty session, appended exactly one history row (for
    the given player and type, with an identifier above all earlier ones, a
    tombstone without metadata for a removal), kept the earlier rows and the
    distinctness of identifiers, left players and cache alone, committed once
    and left nothing pending. *)
Theorem texture_write_appends_one_row (Image_open : list byte -> option Image)
    (requests_get : string -> HttpResponse) (method : Method) (req : Request)
    (user : User) (skin_type : string) (w : World) (r : Response) :
  session w = [] ->
  fst (Resource_dispatch_request Image_open requests_get method req user skin_type w)
  = Return r ->
  (exists row,
     textures (snd (Resource_dispatch_request Image_open requests_get method req user
                      skin_type w))
     = (textures w ++ [row])%list
     /\ tex_user row = user /\ tex_type row = skin_type
     /\ (forall r', r' ∈ textures w -> tex_id r' < tex_id row)
     /\ (method = DELETE -> tex_upload row = None /\ tex_meta row = []))
  /\ (NoDup (tex_id <$> textures w) ->
      NoDup (tex_id <$> textures (snd (Resource_dispatch_request Image_open requests_get
                                         method req user skin_type w))))
  /\ users (snd (Resource_dispatch_request Image_open requests_get method req user
                   skin_type w)) = users w
  /\ validate_tokens (snd (Resource_dispatch_request Image_open requests_get method req
                             user skin_type w)) = validate_tokens w
  /\ commits (snd (Resource_dispatch_request Image_open requests_get method req user
                     skin_type w)) = S (commits w)
  /\ session (snd (Resource_dispatch_request Image_open requests_get method req user
                     skin_type w)) = [].
Proof.
  intros Hs Hr.
  destruct (handler_Return_world _ _ _ _ _ _ _ _ Hs Hr) as (upload & meta & -> & Hdel).
  simpl.
  set (row := {| tex_id := next_id (tex_id <$> textures w); tex_user := user;
                 tex_type := skin_type; tex_upload := upload; tex_meta := meta |}).
  destruct (append_fresh_row_ids (textures w) row eq_refl) as [Habove Hnd].
  split; [|done]. exists row. done.
Qed.

Lemma texture_write_appends_one_row_witness :
  exists row,
    textures (snd (Resource_dispatch_request toy_open toy_get DELETE bare_request alice
                     "skin" world_history))
    = (textures world_history ++ [row])%list
    /\ tex_type row = "skin" /\ tex_upload row = None.
Proof.
  destruct (texture_write_appends_one_row toy_open toy_get DELETE bare_request alice
              "skin" world_history {| body := "{}"; status := 202 |} eq_refl eq_refl)
    as ((row & Ht & _ & Hty & _ & Hdel) & _).
  exists row. split; [exact Ht|]. split; [exact Hty|]. by apply Hdel.
Defined.

(** ** What the profile can and cannot show *)

Lemma active_textures_subset (user : User) (w : World) (r : Texture) :
  r ∈ active_textures user w ->
  r ∈ textures w /\ user_id (tex_user r) = user_id user.
Proof.
  unfold active_textures, distinct_tex_type. rewrite distinct_from_spec.
  intros [_ Hh%head_Some_elem_of]. apply list_elem_of_filter in Hh as [_ Hr].
  by apply (ordered_rows_spec user w).
Qed.




Lemma textures_json_nil cfg (l : list Texture) :
  (forall r, r ∈ l -> tex_upload r = None) -> textures_json cfg l = [].
Proof.
  induction l as [|x l IH]; [done|]. intros H. simpl.
  rewrite (H x) by left. apply IH. intros r Hr. apply H. by right.
Qed.



(** X10: the profile of an unresolved player is 404 [User not found]; the
    profile of a player whose history has no row with a blob (an empty
    history included) is 404 [Skins not found]; the resource never raises and
    aborts with no other status. *)
Theorem profile_not_found (cfg : Config.t) (now : Z) (w : World) :
  UserResource_get cfg None now w = Abort 404 "User not found"
  /\ (forall user,
        (forall r, r ∈ textures w -> user_id (tex_user r) = user_id user ->
                   tex_upload r = None) ->
        UserResource_get cfg (Some user) now w = Abort 404 "Skins not found")
  /\ (forall user,
        match UserResource_get cfg user now w with
        | Return doc => profile_textures doc <> ∅
        | Abort code _ => code = 404
        | Raise _ => False
        end).
Proof.
  split; [done|]. split.
  - intros user Hall. unfold UserResource_get.
    rewrite textures_json_nil; [done|].
    intros r Hr. apply active_textures_subset in Hr as [? ?]. by apply Hall.
  - intros [user|]; [|done]. unfold UserResource_get. by case_decide.
Qed.

(** ** Writing, then reading the profile *)











(** ** Logging in, again *)

(** The row of [u] with the name [name]; other rows as they are. *)
Lemma get_or_create_user_existing_world uuid name u w :
  session w = [] ->
  filter (fun u => user_uuid u = uuid) (users w) = [u] ->
  get_or_create_user uuid name w =
  (Return {| user_id := user_id u; user_uuid := user_uuid u; user_name := name |},
   {| users := (fun r => if decide (user_id r = user_id u)
                         then {| user_id := user_id r; user_uuid := user_uuid r;
                                 user_name := name |}
                         else r) <$> users w;
      uploads := uploads w; textures := textures w; session := [];
      commits := S (commits w); fs := fs w; validate_tokens := validate_tokens w;
      g_user := g_user w |}).
Proof.
  intros Hs H. unfold get_or_create_user, User_one_or_none, session_commit. run_M.
  rewrite H. cbn beta iota. destruct w; simpl in *; subst. reflexivity.
Qed.

(** X14: a call of [get_or_create_user] in a request that started with an
    empty session never adds or removes a player row and never changes an
    identifier or an account identifier: once the request is over, the
    players table has the same identifiers and account identifiers in the
    same order, and blobs and history are as before. *)
Theorem login_keeps_player_rows (uuid name : string) (w : World) :
  session w = [] ->
  user_id <$> users (teardown_request (snd (get_or_create_user uuid name w)))
  = user_id <$> users w
  /\ user_uuid <$> users (teardown_request (snd (get_or_create_user uuid name w)))
     = user_uuid <$> users w
  /\ uploads (teardown_request (snd (get_or_create_user uuid name w))) = uploads w
  /\ textures (teardown_request (snd (get_or_create_user uuid name w))) = textures w.
Proof.
  intros Hs.
  destruct (filter (fun u => user_uuid u = uuid) (users w)) as [|u [|u' l]] eqn:E.
  - by rewrite (get_or_create_user_new _ _ _ E).
  - rewrite (get_or_create_user_existing_world _ _ _ _ Hs E). simpl.
    rewrite <- !list_fmap_compose. repeat split.
    + apply list_fmap_ext. intros j r _. simpl. by case_decide.
    + apply list_fmap_ext. intros j r _. simpl. by case_decide.
  - unfold get_or_create_user, User_one_or_none. run_M. by rewrite E.
Qed.

Lemma login_keeps_player_rows_witness :
  user_id <$> users (teardown_request (snd (get_or_create_user "uuid-bob" "bob" world0)))
  = [Some 1]
  /\ user_uuid <$> users (teardown_request
                            (snd (get_or_create_user "uuid-bob" "bob" world0)))
     = ["uuid-alice"].
Proof.
  destruct (login_keeps_player_rows "uuid-bob" "bob" world0 eq_refl) as (H1 & H2 & _).
  split; [exact H1 | exact H2].
Defined.







(** ** What the response step leaves alone *)



(** ** Handshake, then response *)

Lemma handshake_world cfg server_id setitem req tok name w :
  form req !! "name" = Some name ->
  AuthHandshakeResource_post cfg server_id setitem req tok w =
  (Return {| offline := Config.OFFLINE cfg; serverId := server_id; verifyToken := tok |},
   set_validate_tokens (setitem name (tok, remote_addr req) (validate_tokens w)) w).
Proof.
  intros Hname. unfold AuthHandshakeResource_post, form_getitem. by rewrite Hname.
Qed.

Lemma get_or_create_user_returns uuid name w :
  (length (filter (fun u => user_uuid u = uuid) (users w)) <= 1)%nat ->
  exists user, fst (get_or_create_user uuid name w) = Return user
               /\ user_uuid user = uuid.
Proof.
  intros Hlen.
  destruct (filter (fun u => user_uuid u = uuid) (users w)) as [|u [|u' l]] eqn:E.
  - rewrite (get_or_create_user_new _ _ _ E). by eexists.
  - destruct (get_or_create_user_existing uuid name u w E) as (-> & _).
    eexists. split; [reflexivity|]. simpl.
    assert (Hu : u ∈ filter (fun u => user_uuid u = uuid) (users w))
      by (rewrite E; left).
    by apply list_elem_of_filter in Hu as [? _].
  - simpl in Hlen. lia.
Qed.

(** X18: a handshake answers with the offline flag, the server id and the
    token drawn, and stores token and address under the name.  While that
    entry is readable, a response for the name is refused with 403 when its
    token differs from the one drawn, when its address differs from the
    handshake's, or when the session server does not confirm; otherwise
    (and with at most one player row for the confirmed account) it succeeds
    with status 200 and the confirmed account identifier.  The handshake
    fails with 400 without a [name] field, changing nothing. *)
Theorem handshake_then_response (dumps : option Z -> Z -> string)
    (has_joined : string -> string -> string -> Joined) (cfg : Config.t)
    (server_id : string)
    (setitem : string -> Z * string -> gmap string (Z * string)
               -> gmap string (Z * string))
    (hs req : Request) (name vt : string) (tok n : Z) (w : World) :
  Config.OFFLINE cfg = false ->
  form hs !! "name" = Some name ->
  setitem name (tok, remote_addr hs) (validate_tokens w) !! name
  = Some (tok, remote_addr hs) ->
  form req !! "name" = Some name ->
  form req !! "verifyToken" = Some vt ->
  Py.int_ vt = Some n ->
  fst (AuthHandshakeResource_post cfg server_id setitem hs tok w)
  = Return {| offline := false; serverId := server_id; verifyToken := tok |}
  /\ (n <> tok ->
      fst (AuthResponseResource_post dumps has_joined cfg server_id req
             (teardown_request
                (snd (AuthHandshakeResource_post cfg server_id setitem hs tok w))))
      = Abort 403 "The verify token is not valid")
  /\ (n = tok -> remote_addr req <> remote_addr hs ->
      fst (AuthResponseResource_post dumps has_joined cfg server_id req
             (teardown_request
                (snd (AuthHandshakeResource_post cfg server_id setitem hs tok w))))
      = Abort 403 "IP does not match")
  /\ (n = tok -> remote_addr req = remote_addr hs ->
      joined_ok (has_joined name server_id (remote_addr req)) = false ->
      fst (AuthResponseResource_post dumps has_joined cfg server_id req
             (teardown_request
                (snd (AuthHandshakeResource_post cfg server_id setitem hs tok w))))
      = Abort 403 "")
  /\ (n = tok -> remote_addr req = remote_addr hs ->
      joined_ok (has_joined name server_id (remote_addr req)) = true ->
      (length (filter (fun u => user_uuid u
                                = joined_id (has_joined name server_id (remote_addr req)))
                      (users w)) <= 1)%nat ->
      exists login,
        fst (AuthResponseResource_post dumps has_joined cfg server_id req
               (teardown_request
                  (snd (AuthHandshakeResource_post cfg server_id setitem hs tok w))))
        = Return login
        /\ login_status login = 200
        /\ userId login = joined_id (has_joined name server_id (remote_addr req)))
  /\ (forall hs' tok',
        form hs' !! "name" = None ->
        AuthHandshakeResource_post cfg server_id setitem hs' tok' w
        = (Abort 400 "BadRequestKeyError", w)).
Proof.
  intros Hoff Hname Hset Hname' Hvt Hint.
  rewrite (handshake_world _ _ _ _ _ _ _ Hname). simpl fst. simpl snd.
  rewrite Hoff.
  set (w1 := teardown_request
               (set_validate_tokens
                  (setitem name (tok, remote_addr hs) (validate_tokens w)) w)).
  assert (Hentry : validate_tokens w1 !! name = Some (tok, remote_addr hs)) by exact Hset.
  pose proof (response_examines_entry dumps has_joined cfg server_id req name vt n tok
                (remote_addr hs) w1 Hoff Hname' Hvt Hint Hentry) as Hresp.
  cbv zeta in Hresp. rewrite Hresp. clear Hresp.
  split; [done|]. split; [|split; [|split; [|split]]].
  - intros Hne. by rewrite decide_True by congruence.
  - intros -> Hne. rewrite decide_False by (intros H; by apply H).
    by rewrite decide_True by congruence.
  - intros -> Haddr Hok. rewrite decide_False by (intros H; by apply H).
    rewrite decide_False by (intros H; by apply H). by rewrite Hok.
  - intros -> Haddr Hok Hlen. rewrite decide_False by (intros H; by apply H).
    rewrite decide_False by (intros H; by apply H). rewrite Hok. cbn [negb].
    set (w2 := set_validate_tokens (delete name (validate_tokens w1)) w1).
    destruct (get_or_create_user_returns
                (joined_id (has_joined name server_id (remote_addr req)))
                (joined_name (has_joined name server_id (remote_addr req))) w2 Hlen)
      as (user & Hu & Huuid).
    unfold bind at 1.
    destruct (get_or_create_user _ _ w2) as [o w3]. simpl in Hu. subst o.
    eexists. split; [reflexivity|]. simpl. by rewrite Huuid.
  - intros hs' tok' Hnone. unfold AuthHandshakeResource_post, form_getitem.
    by rewrite Hnone.
Qed.

Lemma handshake_then_response_witness :
  fst (AuthHandshakeResource_post cfg0 "srv" toy_setitem bob_handshake 4711 world0)
  = Return {| offline := false; serverId := "srv"; verifyToken := 4711 |}
  /\ fst (AuthResponseResource_post toy_dumps toy_has_joined cfg0 "srv" bob_wrong_token
            (teardown_request
               (snd (AuthHandshakeResource_post cfg0 "srv" toy_setitem bob_handshake
                       4711 world0))))
     = Abort 403 "The verify token is not valid".
Proof.
  destruct (handshake_then_response toy_dumps toy_has_joined cfg0 "srv" toy_setitem
              bob_handshake bob_wrong_token "bob" "1" 4711 1 world0)
    as (Hhs & Hbad & _); try (vm_compute; reflexivity).
  split; [exact Hhs|]. apply Hbad. discriminate.
Defined.

(** ** Content that is already stored *)

(** X19: an accepted upload of content a blob exists for writes nothing to
    the storage and adds no blob row, whoever uploads and whatever the bytes
    of the file are: the stored object stays the one written first, the blob
    row keeps its first uploader, and the uploader's new history row
    references that blob. *)
Theorem known_content_writes_nothing (Image_open : list byte -> option Image)
    (user : User) (file : list byte) (skin_type : string)
    (metadata : gmap string string) (w : World) (h : string) (u : Upload) :
  session w = [] ->
  gen_skin_hash Image_open file = Return h ->
  Upload_first_by_hash h w = Some u ->
  fs (snd (put_texture Image_open user file skin_type metadata w)) = fs w
  /\ uploads (snd (put_texture Image_open user file skin_type metadata w)) = uploads w
  /\ u ∈ uploads w /\ upload_hash u = h
  /\ exists row,
       textures (snd (put_texture Image_open user file skin_type metadata w))
       = (textures w ++ [row])%list
       /\ tex_user row = user /\ tex_upload row = Some u.
Proof.
  intros Hs Hh Hq. rewrite (put_texture_existing _ _ _ _ _ _ _ _ Hs Hh Hq). simpl.
  apply first_by_hash_Some in Hq as [Hu Hhash].
  repeat split; try done. eexists. repeat split.
Qed.

Lemma known_content_writes_nothing_witness :
  fs (snd (put_texture toy_open alice png64_reencoded "hat" ∅ world_uploaded))
  !! "0ca623e2855f2c75c842ad302fe820e41b4d197d" = Some png64
  /\ uploads (snd (put_texture toy_open alice png64_reencoded "hat" ∅ world_uploaded))
     = uploads world_uploaded.
Proof.
  destruct (known_content_writes_nothing toy_open alice png64_reencoded "hat" ∅
              world_uploaded "0ca623e2855f2c75c842ad302fe820e41b4d197d"
              {| upload_hash := "0ca623e2855f2c75c842ad302fe820e41b4d197d";
                 upload_user := alice |})
    as (Hfs & Hup & _); try (vm_compute; reflexivity).
  split; [rewrite Hfs; vm_compute; reflexivity | exact Hup].
Defined.
